(** * orion: changepoint report and visualization

    A shallow embedding of [orion/report.py] and of the computed parts of
    [orion/visualization.py] ([_build_test_figure]), with the properties
    of the changepoint extractor, the value formatter, the label and PR
    helpers, the report renderer and the regression colouring.

    Modelling conventions.
    - A Python [str] is a [string]: the bytes of its UTF-8 encoding.  The
      case mapping and the whitespace class below are Python's on ASCII
      text; non-ASCII letters are left alone by [lower].
    - A Python [float] (and a NumPy [float64]) is a binary64 value, a
      [spec_float] with precision 53 and maximal exponent 1024 in
      canonical form ([valid_binary]), and its arithmetic is the
      correctly rounded arithmetic of [SpecFloat], which keeps that form.
    - A Python [int] is a [Z].
    - A JSON object with a fixed schema is a record whose optional keys
      are [option] fields; a [dict] that is iterated is an association
      list in insertion order; a [set] is a [gset]; the workload mapping
      is a [gmap].
    - An exception is [None] in an [option] result. *)

From Stdlib Require Import ZArith String Ascii List Bool Lia.
From Stdlib Require Import Numbers.DecimalString.
From Stdlib Require Import Floats.SpecFloat Floats.PrimFloat Floats.FloatOps.
From stdpp Require Import base option list gmap strings sorting.

Open Scope Z_scope.

(** ** Python strings *)

Module PyStr.

(** [str.isspace] on one ASCII character: TAB..CR, FS..US and the space. *)
Definition is_space (c : ascii) : bool :=
  let n := N_of_ascii c in
  (((9 <=? n) && (n <=? 13)) || ((28 <=? n) && (n <=? 32)))%N.

Definition lower_char (c : ascii) : ascii :=
  let n := N_of_ascii c in
  if ((65 <=? n) && (n <=? 90))%N then ascii_of_N (n + 32) else c.

(** [s.lower()] *)
Fixpoint lower (s : string) : string :=
  match s with
  | EmptyString => EmptyString
  | String c s' => String (lower_char c) (lower s')
  end.

(** [s.lstrip(chars)], [chars] given as a predicate on characters. *)
Fixpoint lstrip (p : ascii -> bool) (s : string) : string :=
  match s with
  | EmptyString => EmptyString
  | String c s' => if p c then lstrip p s' else s
  end.

(** [s.rstrip(chars)] *)
Fixpoint rstrip (p : ascii -> bool) (s : string) : string :=
  match s with
  | EmptyString => EmptyString
  | String c s' =>
      match rstrip p s' with
      | EmptyString => if p c then EmptyString else String c EmptyString
      | r => String c r
      end
  end.

(** [s.strip(chars)] *)
Definition strip_chars (p : ascii -> bool) (s : string) : string :=
  lstrip p (rstrip p s).

(** [s.strip()] *)
Definition strip (s : string) : string := strip_chars is_space s.

(** Membership of a character in a literal set of characters. *)
Definition one_of (chars : string) (c : ascii) : bool :=
  existsb (Ascii.eqb c) (list_ascii_of_string chars).

(** [s.replace(c, "")] for a one-character [c]. *)
Fixpoint remove_char (c : ascii) (s : string) : string :=
  match s with
  | EmptyString => EmptyString
  | String a s' =>
      if Ascii.eqb a c then remove_char c s' else String a (remove_char c s')
  end.

(** [s.split(sep)] for a one-character [sep]; the result is never empty. *)
Fixpoint split (sep : ascii) (s : string) : list string :=
  match s with
  | EmptyString => [EmptyString]
  | String c s' =>
      if Ascii.eqb c sep then EmptyString :: split sep s'
      else match split sep s' with
           | h :: t => String c h :: t
           | [] => [String c EmptyString]
           end
  end.

(** [a in b] on strings: [a] occurs in [b] as a substring. *)
Fixpoint contains (a b : string) : bool :=
  String.prefix a b ||
  match b with
  | EmptyString => false
  | String _ b' => contains a b'
  end.

(** Truth value of a string: non-empty. *)
Definition truthy (s : string) : bool := negb (String.eqb s "").

(** [a or b] on strings. *)
Definition or_else (a b : string) : string := if truthy a then a else b.

(** [s * n] *)
Fixpoint repeat (s : string) (n : nat) : string :=
  match n with
  | O => EmptyString
  | S n' => s +:+ repeat s n'
  end.


(** [str(n)] for an [int]. *)
Definition of_Z (z : Z) : string := NilZero.string_of_int (Z.to_int z).

(** [str(n)] for a non-negative count. *)
Definition of_nat (n : nat) : string := of_Z (Z.of_nat n).

(** [sep.join(l)] *)
Fixpoint join (sep : string) (l : list string) : string :=
  match l with
  | [] => EmptyString
  | [s] => s
  | s :: t => s +:+ sep +:+ join sep t
  end.

End PyStr.

(** ** Python floats: binary64 *)

Module PyFloat.

Abbreviation float := spec_float.

Local Open Scope Z_scope.

Definition prec : Z := 53.
Definition emax : Z := 1024.

Definition fadd : float -> float -> float := SFadd prec emax.
Definition fsub : float -> float -> float := SFsub prec emax.
Definition fmul : float -> float -> float := SFmul prec emax.
Definition fdiv : float -> float -> float := SFdiv prec emax.
Definition fabs : float -> float := SFabs.
Definition feqb : float -> float -> bool := SFeqb.
Definition fltb : float -> float -> bool := SFltb.
Definition fleb : float -> float -> bool := SFleb.

(** [float(n)] for an [int], rounded to nearest even.  Python raises
    [OverflowError] beyond the binary64 range, where this is an infinity;
    the integers converted below are the directions -1, 0, 1, the
    constants 1 and 100 and percentages. *)
Definition of_int (z : Z) : float := binary_normalize prec emax z 0 false.

Definition zero : float := S754_zero false.
Definition nan : float := S754_nan.

(** The float literals of the source, as the nearest binary64 values. *)
Set Warnings "-inexact-float".
Definition f0_1 : float := Eval vm_compute in Prim2SF 0.1%float.
Definition f0_15 : float := Eval vm_compute in Prim2SF 0.15%float.
Definition f0_08 : float := Eval vm_compute in Prim2SF 0.08%float.
Set Warnings "inexact-float".

(** Truth value of a float: anything but a zero (a NaN is true). *)
Definition truthy (f : float) : bool := negb (feqb f zero).

(** [n / d] rounded to the nearest integer, ties to even, for [0 <= n]
    and [0 < d]. *)
Definition div_half_even (n d : Z) : Z :=
  let q := n / d in
  let r := n mod d in
  match 2 * r ?= d with
  | Lt => q
  | Gt => q + 1
  | Eq => if Z.even q then q else q + 1
  end.

(** The integer nearest to [m * 2^e * 10^ndigits], ties to even: the
    digits of the [%.<ndigits>f] conversion, which is correctly rounded
    from the exact binary value. *)
Definition scaled (ndigits : nat) (m : positive) (e : Z) : Z :=
  let p10 := 10 ^ Z.of_nat ndigits in
  if 0 <=? e then Zpos m * 2 ^ e * p10
  else div_half_even (Zpos m * p10) (2 ^ (- e)).

(** Commas between groups of three digits, on the reversed digits. *)
Fixpoint group3_rev (l : list ascii) (k : nat) : list ascii :=
  match l with
  | [] => []
  | c :: t =>
      match k with
      | O => ","%char :: c :: group3_rev t 2
      | S k' => c :: group3_rev t k'
      end
  end.

Definition group3 (digits : string) : string :=
  string_of_list_ascii (rev (group3_rev (rev (list_ascii_of_string digits)) 3)).

(** A non-negative integer in [width] digits, zero padded on the left. *)
Definition zero_pad (width : nat) (n : Z) : string :=
  let s := PyStr.of_Z n in
  PyStr.repeat "0" (width - String.length s) +:+ s.

(** The digits of [q], an integer scaled by [10^ndigits], in fixed
    notation: integer part, then the point and the fraction when
    [ndigits] is positive. *)
Definition fixed_digits (grouping : bool) (ndigits : nat) (q : Z) : string :=
  let p10 := 10 ^ Z.of_nat ndigits in
  let int_part := PyStr.of_Z (q / p10) in
  (if grouping then group3 int_part else int_part) +:+
  match ndigits with
  | O => ""
  | _ => "." +:+ zero_pad ndigits (q mod p10)
  end.

(** Sign prefix: [-] for a set sign bit, [+] for a clear one under the
    [+] flag. *)
Definition sign_prefix (plus : bool) (s : bool) : string :=
  if s then "-" else if plus then "+" else "".

(** [format(f, "[+][,].<ndigits>f")] *)
Definition format_fixed (plus grouping : bool) (ndigits : nat) (f : float) : string :=
  match f with
  | S754_nan => sign_prefix plus false +:+ "nan"
  | S754_infinity s => sign_prefix plus s +:+ "inf"
  | S754_zero s => sign_prefix plus s +:+ fixed_digits grouping ndigits 0
  | S754_finite s m e =>
      sign_prefix plus s +:+ fixed_digits grouping ndigits (scaled ndigits m e)
  end.

End PyFloat.

(** ** Python numbers: [int] or [float] *)

Module PyNum.

Import PyFloat.

Inductive num := PInt (z : Z) | PFloat (f : float).

(** The float operand of a mixed operation. *)
Definition to_float (n : num) : float :=
  match n with
  | PInt z => of_int z
  | PFloat f => f
  end.

(** [n != 0] *)
Definition ne0 (n : num) : bool :=
  match n with
  | PInt z => negb (z =? 0)
  | PFloat f => negb (feqb f zero)
  end.

(** [n > 0] *)
Definition gt0 (n : num) : bool :=
  match n with
  | PInt z => 0 <? z
  | PFloat f => fltb zero f
  end.

(** [a * b]: exact on two ints, a float product otherwise. *)
Definition mul (a b : num) : num :=
  match a, b with
  | PInt x, PInt y => PInt (x * y)
  | _, _ => PFloat (fmul (to_float a) (to_float b))
  end.

(** [format(n, "[+].<ndigits>f")]: an int is converted to a float. *)
Definition format_fixed (plus : bool) (ndigits : nat) (n : num) : string :=
  PyFloat.format_fixed plus false ndigits (to_float n).

End PyNum.

(** ** orion/report.py *)

Module Report.

Import PyFloat PyNum.

(** A value that is not a float, as JSON gives it: a scalar. *)
Inductive scalar := SNone | SBool (b : bool) | SInt (z : Z) | SStr (s : string).

(** A metric value: [isinstance(value, float)] or not. *)
Inductive metric_value := VFloat (f : float) | VOther (o : scalar).

(** [str(o)] *)
Definition str (o : scalar) : string :=
  match o with
  | SNone => "None"
  | SBool b => if b then "True" else "False"
  | SInt z => PyStr.of_Z z
  | SStr s => s
  end.

(** One entry of [metrics]: every key is optional. *)
Record metric_info := {
  value : option metric_value;
  percentage_change : option num;
  labels : option string
}.

Record github_context := {
  current_version : option string;
  previous_version : option string
}.

(** One data point of the orion JSON array. *)
Record entry := {
  is_changepoint : option bool;
  metrics : option (list (string * metric_info));
  github_ctx : option github_context;
  ocpVersion : option string;
  buildUrl : option string;
  prs : option (list string)
}.

(** The dict appended by [extract_changepoints]. *)
Record changepoint := {
  cp_current_version : string;
  cp_previous_version : string;
  cp_build_url : string;
  cp_prs : list string;
  cp_regressed_metrics : list (string * metric_info)
}.

(** [info.get("percentage_change", 0)] *)
Definition pct_of (info : metric_info) : num :=
  default (PInt 0) (percentage_change info).

(** The dict comprehension of [extract_changepoints]. *)
Definition regressed_of (e : entry) : list (string * metric_info) :=
  List.filter (fun '(name, info) => ne0 (pct_of info)) (default [] (metrics e)).

(** [entry.get("github_context", {})] *)
Definition github_ctx_of (e : entry) : github_context :=
  default {| current_version := None; previous_version := None |} (github_ctx e).

(** Outcome of one iteration of the loop of [extract_changepoints]. *)
Inductive step := Continue | Append (cp : changepoint) | Raise.

(** The body of the loop at index [i] and entry [e]; [data[i - 1]] raises
    [IndexError] when it is out of range. *)
Definition loop_body (data : list entry) (i : nat) (e : entry) : step :=
  if negb (default false (is_changepoint e)) then Continue
  else
    let regressed := regressed_of e in
    match regressed with
    | [] => Continue
    | _ =>
        let ctx := github_ctx_of e in
        let current := PyStr.or_else (default "" (current_version ctx))
                                     (default "unknown" (ocpVersion e)) in
        let previous := default "" (previous_version ctx) in
        let mk p := Append {| cp_current_version := current;
                              cp_previous_version := p;
                              cp_build_url := default "" (buildUrl e);
                              cp_prs := default [] (prs e);
                              cp_regressed_metrics := regressed |} in
        if negb (PyStr.truthy previous) && (0 <? i)%nat then
          match data !! (i - 1)%nat with
          | Some prev => mk (default "unknown" (ocpVersion prev))
          | None => Raise
          end
        else mk previous
    end.

(** [for i, entry in enumerate(data)], from index [i] on the entries
    [rest], with the list [changepoints] built so far. *)
Fixpoint extract_loop (data : list entry) (i : nat) (rest : list entry)
  (changepoints : list changepoint) : option (list changepoint) :=
  match rest with
  | [] => Some changepoints
  | e :: rest' =>
      match loop_body data i e with
      | Continue => extract_loop data (S i) rest' changepoints
      | Append cp => extract_loop data (S i) rest' (changepoints ++ [cp])
      | Raise => None
      end
  end.

Definition extract_changepoints (data : list entry) : option (list changepoint) :=
  extract_loop data 0 data [].

(** [abs(value) >= bound] for an integer bound. *)
Definition abs_ge (f : float) (bound : Z) : bool := fleb (of_int bound) (fabs f).

Definition _format_metric_value (value : metric_value) : string :=
  match value with
  | VFloat f =>
      if abs_ge f 1000000 then PyFloat.format_fixed false true 0 f
      else if abs_ge f 1 then PyFloat.format_fixed false false 4 f
      else PyStr.rstrip (PyStr.one_of ".")
             (PyStr.rstrip (PyStr.one_of "0") (PyFloat.format_fixed false false 10 f))
  | VOther o => str o
  end.

(** The parts of one label that survive: brackets removed, split on [/],
    stripped, lowered, neither empty nor [jira:]. *)
Definition label_parts (label : string) : list string :=
  List.filter (fun part => PyStr.truthy part && negb (String.eqb part "jira:"))
    (map (fun part => PyStr.lower (PyStr.strip part))
       (PyStr.split "/" (PyStr.remove_char "]" (PyStr.remove_char "[" label)))).

Definition _extract_components (regressed_metrics : list (string * metric_info)) : gset string :=
  fold_left
    (fun components '(_, metric_info) =>
       fold_left (fun components part => components ∪ {[ part ]})
         (label_parts (default "" (labels metric_info))) components)
    regressed_metrics ∅.

(** [parts[-3].lower() if len(parts) >= 4 else ""] *)
Definition repo_name_of (pr_url : string) : string :=
  let parts := PyStr.split "/" (PyStr.rstrip (PyStr.one_of "/") pr_url) in
  if (4 <=? length parts)%nat
  then PyStr.lower (default "" (parts !! (length parts - 3)%nat))
  else "".

(** The [any(...)] test of one URL against the components. *)
Definition is_related (pr_url : string) (components : gset string) : bool :=
  let repo_name := repo_name_of pr_url in
  existsb (fun comp => PyStr.contains comp repo_name || PyStr.contains repo_name comp)
    (elements components).

Definition _sort_prs_by_relevance (prs : list string) (components : gset string)
  : list string * list string :=
  fold_left
    (fun '((matching, others) : list string * list string) pr_url =>
       if is_related pr_url components
       then ((matching ++ [pr_url]), others)
       else (matching, (others ++ [pr_url])))
    prs ([], []).

(** *** The report renderer

    [print] appends one line to the standard output, modelled as the list
    of printed lines; [tabulate] is the external table renderer called
    with [tablefmt="grid"], taken as given. *)


Section Renderer.

Variable tabulate : list (list string) -> list string -> string.







(** Order of the items of the mapping: by workload name. *)
Definition item_le (x y : string * list entry) : Prop := String.le x.1 y.1.

#[global] Instance item_le_dec : RelDecision item_le.
Proof. intros x y. unfold item_le. apply _. Defined.






End Renderer.

End Report.

(** ** orion/visualization.py: the computed parts of [_build_test_figure]

    The plotly calls are outside the model; what they are given is
    modelled: for one metric row the marker of every changepoint and the
    range of the y axis, and for the title the summary tokens. *)

Module Visualization.

Import PyFloat PyNum.

(** [cp.stats] and [cp] of the detection algorithm. *)
Record comparison_stats := { mean_1 : float; mean_2 : float }.
Record change_point := { index : nat; stats : comparison_stats }.

(** One entry of [metrics_config]. *)
Record metric_config := { direction : option Z }.

(** [pct_change]: the int [0] when [mean_1 == 0], else the relative
    change in percent. *)
Definition pct_change_of (s : comparison_stats) : num :=
  if feqb (mean_1 s) zero then PInt 0
  else PFloat (fmul (fdiv (fsub (mean_2 s) (mean_1 s)) (mean_1 s)) (of_int 100)).

(** [(pct_change * direction > 0) or direction == 0] *)
Definition is_regression (pct_change : num) (direction : Z) : bool :=
  gt0 (PyNum.mul pct_change (PInt direction)) || (direction =? 0).

(** ["#ff4444" if is_regression else "#39ff14"] *)
Definition color_of (is_regression : bool) : string :=
  if is_regression then "#ff4444" else "#39ff14".

(** [metric_config.get("direction", 0)] *)
Definition direction_of (c : metric_config) : Z := default 0 (direction c).

Definition is_nan (f : float) : bool :=
  match f with
  | S754_nan => true
  | _ => false
  end.

(** [values.min()] and [values.max()] of a float64 column: NaN entries
    are skipped, and the result is NaN when nothing is left. *)
Definition series_min (values : list float) : float :=
  fold_left (fun acc x => if is_nan x then acc
                          else if is_nan acc then x
                          else if fltb x acc then x else acc) values nan.

Definition series_max (values : list float) : float :=
  fold_left (fun acc x => if is_nan x then acc
                          else if is_nan acc then x
                          else if fltb acc x then x else acc) values nan.

(** What the marker, the dashed line and the annotation of one
    changepoint are drawn with. *)
Record marker := {
  mk_x : nat;
  mk_y : float;
  mk_color : string;
  mk_text : string;
  mk_text_y : float
}.

(** One iteration of the loop over [change_points]; [None] is the
    [continue] of an index beyond the data. *)
Definition changepoint_marker (config : metric_config) (values : list float)
  (cp : change_point) : option marker :=
  match values !! index cp with
  | None => None
  | Some cp_value =>
      let pct_change := pct_change_of (stats cp) in
      let color := color_of (is_regression pct_change (direction_of config)) in
      let y_range := fsub (series_max values) (series_min values) in
      Some {| mk_x := index cp;
              mk_y := cp_value;
              mk_color := color;
              mk_text := "<b>" +:+ PyNum.format_fixed true 1 pct_change +:+ "%</b>";
              mk_text_y := fadd (series_max values) (fmul y_range f0_08) |}
  end.

(** The y-axis padding, from [y_min] and [y_max]:
    [y_span = y_max - y_min if y_max != y_min else abs(y_max) * 0.1 or 1],
    [y_pad = y_span * 0.15]. *)
Definition y_span_of (y_min y_max : float) : float :=
  if negb (feqb y_max y_min) then fsub y_max y_min
  else
    let tenth := fmul (fabs y_max) f0_1 in
    if PyFloat.truthy tenth then tenth else of_int 1.

Definition y_pad_of (y_min y_max : float) : float :=
  fmul (y_span_of y_min y_max) f0_15.

(** The [range] given to [update_yaxes]. *)
Definition y_axis_range (values : list float) : float * float :=
  let y_min := series_min values in
  let y_max := series_max values in
  let y_pad := y_pad_of y_min y_max in
  (fsub y_min y_pad, fadd y_max y_pad).

(** [d.get(key)] on a dict kept as an association list. *)
Fixpoint assoc_get {A} (key : string) (d : list (string * A)) : option A :=
  match d with
  | [] => None
  | (k, v) :: d' => if String.eqb k key then Some v else assoc_get key d'
  end.

(** The summary token of one changepoint of [metric_name]. *)
Definition cp_part (metrics_config : list (string * metric_config))
  (metric_name : string) (cp : change_point) : string :=
  let pct := pct_change_of (stats cp) in
  let direction :=
    direction_of (default {| direction := None |} (assoc_get metric_name metrics_config)) in
  let color := color_of (is_regression pct direction) in
  "<span style='color:" +:+ color +:+ "'>" +:+ metric_name +:+ ": "
  +:+ PyNum.format_fixed true 1 pct +:+ "%</span>".

(** [cp_parts]: one token per changepoint, metric by metric. *)
Definition cp_parts (metrics_config : list (string * metric_config))
  (change_points_by_metric : list (string * list change_point)) : list string :=
  flat_map (fun '(metric_name, cps) => map (cp_part metrics_config metric_name) cps)
    change_points_by_metric.

(** [cp_summary_line]: the tokens joined, or nothing without tokens. *)
Definition cp_summary_line (cp_parts : list string) : string :=
  match cp_parts with
  | [] => ""
  | _ => "<br><span style='font-size:11px'>" +:+ PyStr.join " | " cp_parts +:+ "</span>"
  end.

End Visualization.

(** ** The statements of the specification, as definitions *)

Module Spec.

Import PyFloat PyNum Report Visualization.

(** A run is flagged: [is_changepoint] is true. *)
Definition flagged (e : entry) : bool :=
  bool_decide (is_changepoint e = Some true).

(** A run has at least one metric with a non-zero percentage change. *)
Definition has_change (e : entry) : bool :=
  existsb (fun item => ne0 (pct_of item.2)) (default [] (metrics e)).

(** A run yields a changepoint: flagged, with a change. *)
Definition emits (e : entry) : bool := flagged e && has_change e.

(** The metrics of a run with a non-zero percentage change. *)
Definition nonzero_metrics (e : entry) : list (string * metric_info) :=
  List.filter (fun item => ne0 (pct_of item.2)) (default [] (metrics e)).

(** The changepoint of the run [e] at index [i], when it yields one. *)
Definition changepoint_of (data : list entry) (i : nat) (e : entry) : changepoint :=
  let ctx := github_ctx_of e in
  let given := default "" (previous_version ctx) in
  {| cp_current_version :=
       PyStr.or_else (default "" (current_version ctx)) (default "unknown" (ocpVersion e));
     cp_previous_version :=
       if PyStr.truthy given then given
       else match i with
            | O => ""
            | S j => from_option (fun prev => default "unknown" (ocpVersion prev)) "" (data !! j)
            end;
     cp_build_url := default "" (buildUrl e);
     cp_prs := default [] (prs e);
     cp_regressed_metrics := nonzero_metrics e |}.

(** The changepoints of the runs [rest], which sit at the indices from [i]. *)
Fixpoint emitted_from (data : list entry) (i : nat) (rest : list entry) : list changepoint :=
  match rest with
  | [] => []
  | e :: rest' =>
      (if emits e then [changepoint_of data i e] else []) ++ emitted_from data (S i) rest'
  end.

(** The three classifications of a workload. *)
Inductive classification := SKIP | PASS | REGRESSION_DETECTED.

#[global] Instance classification_eq_dec : EqDecision classification.
Proof. solve_decision. Defined.





(** The y-axis padding as the specification words it: 15% of the span;
    for a zero span 10% of the magnitude; for a zero magnitude one unit. *)
Definition claimed_y_pad (y_min y_max : float) : float :=
  let span := fsub y_max y_min in
  if PyFloat.truthy span then fmul span f0_15
  else
    let magnitude := fabs y_max in
    if PyFloat.truthy magnitude then fmul magnitude f0_1 else of_int 1.

Definition claimed_y_axis_range (values : list float) : float * float :=
  let y_min := series_min values in
  let y_max := series_max values in
  let pad := claimed_y_pad y_min y_max in
  (fsub y_min pad, fadd y_max pad).

End Spec.

(** ** Concrete inputs *)

Module Examples.

Import PyFloat PyNum Report Visualization.

Set Warnings "-inexact-float".

(** Float literals, as the nearest binary64 values. *)
Definition f_1234567 : float := Eval vm_compute in Prim2SF 1234567.0%float.
Definition f_12_345678 : float := Eval vm_compute in Prim2SF 12.345678%float.
Definition f_0_000012345 : float := Eval vm_compute in Prim2SF 0.000012345%float.
Definition f_12_5 : float := Eval vm_compute in Prim2SF 12.5%float.
Definition f_5 : float := Eval vm_compute in Prim2SF 5.0%float.
Definition f_minus_5 : float := Eval vm_compute in Prim2SF (-5.0)%float.
Definition f_10 : float := Eval vm_compute in Prim2SF 10.0%float.
Definition f_9 : float := Eval vm_compute in Prim2SF 9.0%float.
Definition f_11 : float := Eval vm_compute in Prim2SF 11.0%float.
Definition f_9_85 : float := Eval vm_compute in Prim2SF 9.85%float.
Definition f_10_15 : float := Eval vm_compute in Prim2SF 10.15%float.
Definition f_1000 : float := Eval vm_compute in Prim2SF 1000.0%float.

Set Warnings "inexact-float".

(** A metric sample with the label of the docstring of
    [_extract_components]. *)
Definition networking_metric (pct : option num) : metric_info :=
  {| value := Some (VFloat f_12_345678);
     percentage_change := pct;
     labels := Some "[Jira: Networking / ovn-kubernetes]" |}.

(** A run that is no changepoint, from the payload 4.17. *)
Definition run_quiet : entry :=
  {| is_changepoint := Some false;
     metrics := Some [("podLatency", networking_metric (Some (PInt 0)))];
     github_ctx := None;
     ocpVersion := Some "4.17";
     buildUrl := None;
     prs := None |}.

(** A changepoint run: one metric changed by 12.5 percent, no
    [github_context]. *)
Definition run_regressed : entry :=
  {| is_changepoint := Some true;
     metrics := Some [("podLatency", networking_metric (Some (PFloat f_12_5)))];
     github_ctx := None;
     ocpVersion := Some "4.18";
     buildUrl := Some "https://prow.example/build/1";
     prs := Some ["https://github.com/ovn-org/ovn-kubernetes/pull/42"] |}.

(** A flagged run whose only sample has no [percentage_change]. *)
Definition run_no_field : entry :=
  {| is_changepoint := Some true;
     metrics := Some [("podLatency", networking_metric None)];
     github_ctx := None;
     ocpVersion := Some "4.18";
     buildUrl := None;
     prs := None |}.

(** A changepoint stat with a zero mean before and a large mean after. *)
Definition stats_from_zero : comparison_stats := {| mean_1 := zero; mean_2 := f_1000 |}.

End Examples.

(** ** Slices, prefixes and separators of Python strings *)

Module PySlice.

(** [s[:n]] for [0 <= n] *)
Fixpoint take (n : nat) (s : string) : string :=
  match n, s with
  | S n', String c s' => String c (take n' s')
  | _, _ => EmptyString
  end.

(** [s[n:]] for [0 <= n] *)
Fixpoint drop (n : nat) (s : string) : string :=
  match n, s with
  | S n', String _ s' => drop n' s'
  | _, _ => s
  end.

(** [s[-n:]] for [0 < n] *)
Definition last_n (n : nat) (s : string) : string :=
  drop (String.length s - n) s.

(** [c in s] for a character [c]. *)
Fixpoint has_char (c : ascii) (s : string) : bool :=
  match s with
  | EmptyString => false
  | String a s' => Ascii.eqb a c || has_char c s'
  end.

(** [s.startswith(prefix)] *)
Definition startswith (prefix s : string) : bool := String.prefix prefix s.

(** [s.endswith(suffix)] *)
Definition endswith (suffix s : string) : bool :=
  (String.length suffix <=? String.length s)%nat
  && String.eqb (drop (String.length s - String.length suffix) s) suffix.

(** [s.split(sep)] for a non-empty string [sep]: the occurrences of [sep]
    are taken from the left and do not overlap; [skip] counts the
    characters of a matched separator still to pass. *)
Fixpoint split_str (sep : string) (skip : nat) (s : string) : list string :=
  match s with
  | EmptyString => [EmptyString]
  | String c s' =>
      match skip with
      | S k => split_str sep k s'
      | O =>
          if String.prefix sep s
          then EmptyString :: split_str sep (String.length sep - 1) s'
          else match split_str sep 0 s' with
               | h :: t => String c h :: t
               | [] => [String c EmptyString]
               end
      end
  end.

End PySlice.

(** ** os.path on POSIX paths *)

Module OsPath.

Import PySlice.

(** [os.path.basename(p)]: what follows the last slash. *)
Definition basename (p : string) : string :=
  List.last (PyStr.split "/" p) EmptyString.

(** [s] up to its last dot, for an [s] that has a dot. *)
Fixpoint cut_last_dot (s : string) : string :=
  match s with
  | EmptyString => EmptyString
  | String c s' =>
      if has_char "." s' then String c (cut_last_dot s')
      else if Ascii.eqb c "." then EmptyString else s
  end.

(** [os.path.splitext(name)[0]] for a file name without a slash: the
    name up to its last dot, when a character other than a dot comes
    before that dot; the whole name otherwise. *)
Fixpoint splitext_root (name : string) : string :=
  match name with
  | EmptyString => EmptyString
  | String c s' =>
      if has_char "." s' then
        if Ascii.eqb c "." then String c (splitext_root s')
        else String c (cut_last_dot s')
      else name
  end.

End OsPath.

(** ** orion/report.py: the files *)

Module ReportFiles.

Import PySlice Report.

(** One step of the loop over the prefixes. *)
Definition strip_prefix (name prefix : string) : string :=
  if startswith prefix name then drop (String.length prefix) name else name.

Definition _derive_workload_name (file_path : string) : string :=
  let name := OsPath.splitext_root (OsPath.basename file_path) in
  let name := fold_left strip_prefix ["orion-"; "junit_"; "output_"] name in
  if endswith "-junit" name
  then take (String.length name - String.length "-junit") name
  else name.

(** What [json.load] makes of a file: an array, another JSON value, or
    a [JSONDecodeError] with its message. *)
Inductive loaded :=
  | LoadedList (parsed : list entry)
  | LoadedOther
  | DecodeError (msg : string).

Section Loader.

(** The files: [None] where [os.path.exists] is false, otherwise what
    [json.load] makes of the file, which [open] is taken to open. *)
Variable files : string -> option loaded.





End Loader.

End ReportFiles.

(** ** pkg/daemon.py: the filter of the responses *)

Module Daemon.

Import Report.

(** [list(filter(lambda x: x.get("is_changepoint", False), value))] *)
Definition filter_changepoints_of (value : list entry) : list entry :=
  List.filter (fun x => default false (is_changepoint x)) value.

(** What [daemon_changepoint] and [daemon_anomaly] return. *)
Inductive response :=
  | ErrorNoUUID
  | Result (result : gmap string (list entry)).

(** The end of [daemon_changepoint] and of [daemon_anomaly], from the
    query parameter and the result of [runTest.run()]: the filter is on
    for the parameter ["true"] only, and replaces every value of the
    result. *)
Definition respond (filter_changepoints : string)
  (result : option (gmap string (list entry))) : response :=
  let filter_changepoints := String.eqb filter_changepoints "true" in
  match result with
  | None => ErrorNoUUID
  | Some result =>
      if filter_changepoints
      then Result (filter_changepoints_of <$> result)
      else Result result
  end.

End Daemon.

(** ** orion/visualization.py: labels, markers and title *)

Module Figure.

Import PySlice PyFloat PyNum Visualization.

(** [_short_version]; [None] is the [IndexError] of [parts[1]]. *)
Definition _short_version (v : string) : option string :=
  if PyStr.contains "nightly-" v then
    match split_str "nightly-" 0 v !! 1%nat with
    | Some part =>
        let date_part := take 10 part in
        Some ("nightly-" +:+ drop 5 date_part)
    | None => None
    end
  else Some (take 20 v).

(** The palette of the metric lines. *)
Definition line_colors : list string :=
  [ "#00d4ff"; "#ff6ec7"; "#39ff14"; "#ffaa00";
    "#ff4444"; "#aa88ff"; "#00ffaa"; "#ff8844" ].

(** [line_colors[(row_idx - 1) % len(line_colors)]]; [None] is an
    [IndexError]. *)
Definition line_color (row_idx : Z) : option string :=
  line_colors !! Z.to_nat ((row_idx - 1) mod Z.of_nat (length line_colors)).

(** The loop over [change_points] of one metric row: the markers drawn,
    the changepoints beyond the data being passed over. *)
Definition row_markers (config : metric_config) (values : list float)
  (change_points : list change_point) : list marker :=
  omap (changepoint_marker config values) change_points.

(** The positions of the version change markers:
    [for i in range(1, len(versions)): if versions.iloc[i] != versions.iloc[i - 1]]. *)
Definition version_change_markers (versions : list string) : list nat :=
  List.filter
    (fun i => negb (bool_decide (versions !! i = versions !! (i - 1)%nat)))
    (seq 1 (length versions - 1)).

(** [total_cps]: the changepoints of all metrics. *)
Definition total_cps (change_points_by_metric : list (string * list change_point)) : nat :=
  fold_right (fun item acc => (length item.2 + acc)%nat) 0%nat change_points_by_metric.

(** ["changepoint" if total_cps == 1 else "changepoints"] *)
Definition cp_label (total_cps : nat) : string :=
  if (total_cps =? 1)%nat then "changepoint" else "changepoints".

(** The title, from the formatted date range and the number of runs. *)
Definition title (test_name date_range : string) (n_runs : nat)
  (metrics_config : list (string * metric_config))
  (change_points_by_metric : list (string * list change_point)) : string :=
  let total := total_cps change_points_by_metric in
  "<b>Orion: " +:+ test_name +:+ "</b><br>"
  +:+ "<span style='font-size:12px; color:#aaa'>"
  +:+ date_range +:+ " | " +:+ PyStr.of_nat n_runs +:+ " runs | "
  +:+ PyStr.of_nat total +:+ " " +:+ cp_label total
  +:+ "</span>"
  +:+ cp_summary_line (cp_parts metrics_config change_points_by_metric).

End Figure.

(** ** Further concrete inputs *)

Module MoreExamples.

Import PyFloat PyNum Report.

(** [2 ** -35], about 2.9e-11: below it a value has no digit left among
    ten decimals. *)
Definition two_pow_minus_35 : float := S754_finite false 4503599627370496 (-87).

Set Warnings "-inexact-float".
Definition f_minus_1e_12 : float := Eval vm_compute in Prim2SF (-0.000000000001)%float.
Set Warnings "inexact-float".

(** The sign bit of a float that has one. *)
Definition sign_bit (f : float) : bool :=
  match f with
  | S754_zero s | S754_infinity s | S754_finite s _ _ => s
  | S754_nan => false
  end.

(** A metric sample without a label. *)
Definition unlabelled_metric : metric_info :=
  {| value := Some (VOther (SInt 42));
     percentage_change := Some (PInt 7);
     labels := None |}.


End MoreExamples.

(** ** Properties of the changepoint extractor *)

Section Extractor.

Import PyFloat PyNum Report Spec.

Lemma truthy_false (s : string) : PyStr.truthy s = false -> s = "".
Proof.
  unfold PyStr.truthy. intros H. apply negb_false_iff in H. by apply String.eqb_eq in H.
Qed.

Lemma regressed_of_nonzero (e : entry) : regressed_of e = nonzero_metrics e.
Proof.
  unfold regressed_of, nonzero_metrics.
  induction (default [] (metrics e)) as [|[name info] l IH]; simpl; [done|].
  by rewrite IH.
Qed.

Lemma has_change_nonzero (e : entry) :
  has_change e = match nonzero_metrics e with [] => false | _ => true end.
Proof.
  unfold has_change, nonzero_metrics.
  induction (default [] (metrics e)) as [|item l IH]; simpl; [done|].
  destruct (ne0 (pct_of item.2)); simpl; [done|apply IH].
Qed.

Lemma flagged_default (e : entry) : flagged e = default false (is_changepoint e).
Proof. unfold flagged. destruct (is_changepoint e) as [[]|]; done. Qed.

(** One iteration at an index of the data: it never raises. *)
Lemma loop_body_at (data : list entry) (i : nat) (e : entry) :
  data !! i = Some e ->
  loop_body data i e = if emits e then Append (changepoint_of data i e) else Continue.
Proof.
  intros Hi. unfold loop_body, emits.
  rewrite <- flagged_default, has_change_nonzero, regressed_of_nonzero.
  destruct (flagged e); simpl; [|done].
  unfold changepoint_of.
  destruct (nonzero_metrics e) as [|item l] eqn:Hnz; [done|].
  destruct (PyStr.truthy (default "" (previous_version (github_ctx_of e)))) eqn:Hgiven;
    simpl; [done|].
  destruct i as [|j]; simpl; [by rewrite (truthy_false _ Hgiven)|].
  rewrite Nat.sub_0_r.
  assert (Hj : is_Some (data !! j)).
  { apply lookup_lt_is_Some. apply lookup_lt_Some in Hi. lia. }
  destruct Hj as [prev ->]. done.
Qed.

Lemma extract_loop_emitted (data : list entry) (rest : list entry) :
  forall (i : nat) (acc : list changepoint),
  (forall k e, rest !! k = Some e -> data !! (i + k)%nat = Some e) ->
  extract_loop data i rest acc = Some (acc ++ emitted_from data i rest).
Proof.
  induction rest as [|e rest IH]; intros i acc Hat; simpl.
  - by rewrite app_nil_r.
  - rewrite (loop_body_at data i e).
    2:{ specialize (Hat 0%nat e eq_refl). by rewrite Nat.add_0_r in Hat. }
    assert (Hat' : forall k e', rest !! k = Some e' -> data !! (S i + k)%nat = Some e').
    { intros k e' Hk. specialize (Hat (S k) e' Hk).
      by replace (S i + k)%nat with (i + S k)%nat by lia. }
    destruct (emits e); simpl.
    + rewrite IH by done. by rewrite <- app_assoc.
    + by apply IH.
Qed.

(** The extractor returns, and what it returns. *)
Lemma extract_changepoints_emitted (data : list entry) :
  extract_changepoints data = Some (emitted_from data 0 data).
Proof.
  unfold extract_changepoints. by rewrite extract_loop_emitted.
Qed.

Lemma emitted_from_regressed (data : list entry) (rest : list entry) (i : nat) :
  map cp_regressed_metrics (emitted_from data i rest)
  = map nonzero_metrics (List.filter emits rest).
Proof.
  revert i. induction rest as [|e rest IH]; intros i; simpl; [done|].
  rewrite map_app, IH. by destruct (emits e).
Qed.

Lemma emitted_from_build_url (data : list entry) (rest : list entry) (i : nat) :
  map cp_build_url (emitted_from data i rest)
  = map (fun e => default "" (buildUrl e)) (List.filter emits rest).
Proof.
  revert i. induction rest as [|e rest IH]; intros i; simpl; [done|].
  rewrite map_app, IH. by destruct (emits e).
Qed.

Lemma emitted_from_prs (data : list entry) (rest : list entry) (i : nat) :
  map cp_prs (emitted_from data i rest)
  = map (fun e => default [] (prs e)) (List.filter emits rest).
Proof.
  revert i. induction rest as [|e rest IH]; intros i; simpl; [done|].
  rewrite map_app, IH. by destruct (emits e).
Qed.



End Extractor.

Section ExtractorClaims.

Import PyFloat PyNum Report Spec.



(** C10.  A metric whose sample has no [percentage_change] counts as
    unchanged, its change is the default 0, and it is in the regressed
    metrics of no run; so a flagged run whose samples all lack the field
    yields no changepoint: its iteration continues, and the result holds
    one changepoint per other qualifying run. *)
Theorem missing_percentage_change_is_unchanged (data : list entry) (i : nat) (e : entry) :
  data !! i = Some e ->
  is_changepoint e = Some true ->
  Forall (fun item => percentage_change item.2 = None) (default [] (metrics e)) ->
  (forall (e' : entry) (item : string * metric_info),
     percentage_change item.2 = None ->
     pct_of item.2 = PInt 0 /\ item ∉ regressed_of e') /\
  regressed_of e = [] /\
  loop_body data i e = Continue /\
  exists cps, extract_changepoints data = Some cps /\
              length cps = length (List.filter emits (delete i data)).
Proof.
  intros Hi Hflag Hall.
  assert (Hpart : forall (e' : entry) (item : string * metric_info),
            percentage_change item.2 = None ->
            pct_of item.2 = PInt 0 /\ item ∉ regressed_of e').
  { intros e' item Hnone. unfold pct_of. rewrite Hnone. split; [done|].
    intros Hin. unfold regressed_of in Hin.
    apply list_elem_of_In, filter_In in Hin as [_ Hne]. destruct item as [name info].
    simpl in Hnone. unfold pct_of in Hne. by rewrite Hnone in Hne. }
  assert (Hnil : regressed_of e = []).
  { destruct (regressed_of e) as [|item l] eqn:Hre; [done|].
    assert (Hin : item ∈ regressed_of e) by (rewrite Hre; apply list_elem_of_here).
    exfalso. refine (proj2 (Hpart e item _) Hin).
    rewrite Forall_forall in Hall. apply Hall.
    unfold regressed_of in Hin. apply list_elem_of_In.
    apply list_elem_of_In, filter_In in Hin. tauto. }
  assert (Hem : emits e = false).
  { unfold emits. rewrite has_change_nonzero, <- regressed_of_nonzero, Hnil.
    apply andb_false_r. }
  split; [exact Hpart|]. split; [exact Hnil|].
  split; [by rewrite loop_body_at, Hem|].
  exists (emitted_from data 0 data). split; [apply extract_changepoints_emitted|].
  rewrite <- (length_map cp_regressed_metrics), emitted_from_regressed, length_map.
  f_equal. clear Hflag Hall Hnil.
  revert i Hi. induction data as [|e0 data IH]; intros i Hi; [done|].
  destruct i as [|i].
  - injection Hi as ->. change (delete 0%nat (e :: data)) with data.
    cbn [List.filter]. by rewrite Hem.
  - change (delete (S i) (e0 :: data)) with (e0 :: delete i data).
    cbn [List.filter]. rewrite (IH i Hi). done.
Qed.

End ExtractorClaims.

Section ExtractorWitnesses.

Import PyFloat PyNum Report Spec Examples.


Lemma missing_percentage_change_is_unchanged_witness :
  [run_quiet; run_no_field] !! 1%nat = Some run_no_field /\
  is_changepoint run_no_field = Some true /\
  Forall (fun item => percentage_change item.2 = None) (default [] (metrics run_no_field)) /\
  (forall (e' : entry) (item : string * metric_info),
     percentage_change item.2 = None ->
     pct_of item.2 = PInt 0 /\ item ∉ regressed_of e') /\
  regressed_of run_no_field = [] /\
  loop_body [run_quiet; run_no_field] 1 run_no_field = Continue /\
  exists cps, extract_changepoints [run_quiet; run_no_field] = Some cps /\
              length cps = length (List.filter emits (delete 1%nat [run_quiet; run_no_field])).
Proof.
  split; [reflexivity|]. split; [reflexivity|]. split; [repeat constructor|].
  apply (missing_percentage_change_is_unchanged [run_quiet; run_no_field] 1 run_no_field);
    [reflexivity|reflexivity|repeat constructor].
Defined.

End ExtractorWitnesses.

(** ** Properties of the value formatter and of the label and PR helpers *)

Section Formatter.

Import PyFloat PyNum Report Spec Examples.

(** Comparing the other way round gives the opposite answer. *)
Lemma SFcompare_antisym (a b : float) :
  SFcompare b a = option_map CompOpp (SFcompare a b).
Proof.
  destruct a as [sa|sa| |sa ma ea], b as [sb|sb| |sb mb eb]; simpl;
    try reflexivity; try (destruct sa; reflexivity); try (destruct sb; reflexivity);
    try (destruct sa, sb; reflexivity).
  assert (Hm : Pos.compare_cont Eq mb ma = CompOpp (Pos.compare_cont Eq ma mb)).
  { symmetry. apply (Pos.compare_cont_antisym ma mb Eq). }
  destruct sa, sb; simpl; try reflexivity;
    rewrite (Z.compare_antisym ea eb), Hm;
    destruct (ea ?= eb); simpl; try reflexivity;
    destruct (Pos.compare_cont Eq ma mb); reflexivity.
Qed.

Lemma fltb_not_fleb (a b : float) : fltb a b = true -> fleb b a = false.
Proof.
  unfold fltb, fleb, SFltb, SFleb. rewrite (SFcompare_antisym a b).
  destruct (SFcompare a b) as [[]|]; simpl; congruence.
Qed.

(** Below one is below a million. *)
Lemma below_one_below_million (f : float) :
  fltb (fabs f) (of_int 1) = true -> fltb (fabs f) (of_int 1000000) = true.
Proof.
  change (of_int 1) with (S754_finite false 4503599627370496 (-52)).
  change (of_int 1000000) with (S754_finite false 8589934592000000 (-33)).
  destruct f as [s|s| |s m e].
  - reflexivity.
  - discriminate.
  - discriminate.
  - unfold fltb, SFltb. cbn [fabs SFabs SFcompare].
    destruct (e ?= -52) eqn:He; try discriminate; intros _.
    + apply Z.compare_eq in He. subst e. reflexivity.
    + assert (Hlt : (e ?= -33) = Lt).
      { apply Z.compare_lt_iff. apply (proj1 (Z.compare_lt_iff _ _)) in He. lia. }
      by rewrite Hlt.
Qed.

(** C7.  The value formatter, by cases in the order of the source: a
    value that is not a float is returned in its direct string form; a
    float with [|value| >= 1000000] in thousands-grouped form with no
    decimals; with [1 <= |value| < 1000000] in fixed form with four
    decimals; with [|value| < 1] in fixed form with ten decimals, the
    trailing zeros and then a bare trailing point stripped.  On the four
    values of the specification it gives [1,234,567], [12.3457],
    [0.000012345] and [0]. *)
Theorem format_metric_value_policy :
  (forall o : scalar, _format_metric_value (VOther o) = str o) /\
  (forall f : float,
     fleb (of_int 1000000) (fabs f) = true ->
     _format_metric_value (VFloat f) = PyFloat.format_fixed false true 0 f) /\
  (forall f : float,
     fleb (of_int 1) (fabs f) = true ->
     fltb (fabs f) (of_int 1000000) = true ->
     _format_metric_value (VFloat f) = PyFloat.format_fixed false false 4 f) /\
  (forall f : float,
     fltb (fabs f) (of_int 1) = true ->
     _format_metric_value (VFloat f)
     = PyStr.rstrip (PyStr.one_of ".")
         (PyStr.rstrip (PyStr.one_of "0") (PyFloat.format_fixed false false 10 f))) /\
  _format_metric_value (VFloat f_1234567) = "1,234,567" /\
  _format_metric_value (VFloat f_12_345678) = "12.3457" /\
  _format_metric_value (VFloat f_0_000012345) = "0.000012345" /\
  _format_metric_value (VFloat zero) = "0".
Proof.
  split; [reflexivity|].
  split.
  { intros f H. unfold _format_metric_value, abs_ge. by rewrite H. }
  split.
  { intros f H1 H2. unfold _format_metric_value, abs_ge.
    by rewrite (fltb_not_fleb _ _ H2), H1. }
  split.
  { intros f H. unfold _format_metric_value, abs_ge.
    by rewrite (fltb_not_fleb _ _ (below_one_below_million f H)), (fltb_not_fleb _ _ H). }
  repeat split; vm_compute; reflexivity.
Qed.

Lemma format_metric_value_policy_witness :
  fleb (of_int 1000000) (fabs f_1234567) = true /\
  _format_metric_value (VFloat f_1234567) = PyFloat.format_fixed false true 0 f_1234567.
Proof.
  split; [reflexivity|].
  apply (proj1 (proj2 format_metric_value_policy) f_1234567). reflexivity.
Defined.

(** What the components are: the surviving parts of the labels. *)
Lemma elem_of_extract_components (regressed_metrics : list (string * metric_info))
  (x : string) :
  x ∈ _extract_components regressed_metrics <->
  exists item, item ∈ regressed_metrics /\ x ∈ label_parts (default "" (labels item.2)).
Proof.
  unfold _extract_components.
  assert (Hinner : forall (parts : list string) (acc : gset string),
            x ∈ fold_left (fun components part => components ∪ {[ part ]}) parts acc
            <-> x ∈ acc \/ x ∈ parts).
  { induction parts as [|part parts IH]; intros acc; simpl.
    - rewrite elem_of_nil. tauto.
    - rewrite IH, elem_of_union, elem_of_singleton, elem_of_cons. tauto. }
  assert (Houter : forall (l : list (string * metric_info)) (acc : gset string),
            x ∈ fold_left
                  (fun components '(_, metric_info) =>
                     fold_left (fun components part => components ∪ {[ part ]})
                       (label_parts (default "" (labels metric_info))) components) l acc
            <-> x ∈ acc \/
                exists item, item ∈ l /\ x ∈ label_parts (default "" (labels item.2))).
  { induction l as [|[name info] l IH]; intros acc; simpl.
    - split; [tauto|]. intros [H|(item & Hin & _)]; [done|]. by inversion Hin.
    - rewrite IH, Hinner. split.
      + intros [[H|H]|(item & Hin & Hx)]; [by left| |].
        * right. exists (name, info). split; [apply list_elem_of_here|done].
        * right. exists item. split; [by apply list_elem_of_further|done].
      + intros [H|(item & Hin & Hx)]; [by left; left|].
        apply elem_of_cons in Hin as [->|Hin]; [by left; right|].
        right. by exists item. }
  rewrite Houter. split; [|tauto]. intros [H|H]; [|done].
  by apply not_elem_of_empty in H.
Qed.

(** C2.  On the label of its docstring, [[Jira: Networking / ovn-kubernetes]],
    the component extractor returns [jira: networking] and
    [ovn-kubernetes]: the part before the slash is kept whole, so
    [networking] is not a component. *)
Theorem extract_components_docstring_label :
  let regressed := [("podLatency", networking_metric (Some (PFloat f_12_5)))] in
  (label_parts "[Jira: Networking / ovn-kubernetes]" = ["jira: networking"; "ovn-kubernetes"]
   /\ _extract_components regressed = {[ "jira: networking"; "ovn-kubernetes" ]}
   /\ ("networking" ∉ _extract_components regressed)
   /\ _extract_components regressed <> {[ "networking"; "ovn-kubernetes" ]}).
Proof.
  intros regressed.
  assert (Hparts : label_parts "[Jira: Networking / ovn-kubernetes]"
                   = ["jira: networking"; "ovn-kubernetes"]) by (vm_compute; reflexivity).
  assert (Hel : forall x, x ∈ _extract_components regressed
                          <-> x = "jira: networking" \/ x = "ovn-kubernetes").
  { intros x. rewrite elem_of_extract_components. subst regressed. split.
    - intros (item & Hin & Hx). apply list_elem_of_singleton in Hin as ->.
      cbn [snd networking_metric labels default from_option id] in Hx.
      rewrite Hparts, !elem_of_cons, elem_of_nil in Hx. tauto.
    - intros Hx. exists ("podLatency", networking_metric (Some (PFloat f_12_5))).
      split; [apply list_elem_of_here|].
      cbn [snd networking_metric labels default from_option id].
      rewrite Hparts, !elem_of_cons, elem_of_nil. tauto. }
  assert (Hnot : "networking" ∉ _extract_components regressed).
  { rewrite Hel. intros [H|H]; discriminate H. }
  split; [exact Hparts|].
  split; [apply set_eq; intros x; rewrite Hel, elem_of_union, !elem_of_singleton; tauto|].
  split; [exact Hnot|].
  intros Heq. apply Hnot. rewrite Heq.
  apply elem_of_union. left. by apply elem_of_singleton.
Qed.

(** The empty string occurs in every string. *)
Lemma contains_empty (s : string) : PyStr.contains "" s = true.
Proof. by destruct s. Qed.

(** A URL without a repository name is related as soon as there is a
    component, and never without one. *)
Lemma is_related_without_repo_name (pr_url : string) (components : gset string) :
  repo_name_of pr_url = "" ->
  is_related pr_url components = negb (bool_decide (components = ∅)).
Proof.
  intros Hrepo. unfold is_related. rewrite Hrepo.
  destruct (elements components) as [|comp comps] eqn:Hel.
  - apply elements_empty_inv in Hel. apply leibniz_equiv in Hel.
    by rewrite bool_decide_eq_true_2.
  - rewrite bool_decide_eq_false_2.
    + cbn [existsb negb]. by rewrite contains_empty, orb_true_r.
    + intros ->. by rewrite elements_empty in Hel.
Qed.

(** C1.  A reference URL of three segments has the empty repository
    name, which is a substring of every component: with one component it
    is placed in the related list, not in the other list. *)
Theorem short_url_with_components_is_related :
  repo_name_of "github.com/pull/42" = ""
  /\ _sort_prs_by_relevance ["github.com/pull/42"] {[ "networking" ]}
     = (["github.com/pull/42"], [])
  /\ _sort_prs_by_relevance ["github.com/pull/42"] ∅
     = ([], ["github.com/pull/42"]).
Proof.
  repeat split; vm_compute; reflexivity.
Qed.

End Formatter.

(** ** Properties of the report renderer *)

Section RendererClaims.

Import PyFloat PyNum Report Spec.

Variable tabulate : list (list string) -> list string -> string.











End RendererClaims.

(** ** Properties of the regression colouring and of the y axis *)

Section VisualizationClaims.

Import PyFloat PyNum Visualization Spec Examples.

(** The int [0] times any direction is not positive. *)
Lemma zero_pct_not_positive (d : Z) : gt0 (PyNum.mul (PInt 0) (PInt d)) = false.
Proof. reflexivity. Qed.

(** Multiplying by 1.0 or by -1.0 is exact: the mantissa is shifted by
    52 bits and shifted back. *)
Lemma digits2_shift (k : nat) (m : positive) :
  Zpos (digits2_pos (Nat.iter k xO m)) = Zpos (digits2_pos m) + Z.of_nat k.
Proof.
  induction k as [|k IH].
  - simpl. lia.
  - change (Nat.iter (S k) xO m) with (xO (Nat.iter k xO m)).
    cbn [digits2_pos]. rewrite Pos2Z.inj_succ, IH, Nat2Z.inj_succ. lia.
Qed.

Lemma shr_shift_52 (m : positive) :
  SpecFloat.iter_pos shr_1 52
    {| shr_m := Zpos (4503599627370496 * m); shr_r := false; shr_s := false |}
  = {| shr_m := Zpos m; shr_r := false; shr_s := false |}.
Proof. reflexivity. Qed.

Lemma shr_fexp_unit (m : positive) (e : Z) :
  Z.max (Zpos (digits2_pos m) + e - 53) (3 - 1024 - 53) = e ->
  shr_fexp 53 1024 (Zpos (4503599627370496 * m)) (e + -52) loc_Exact
  = ({| shr_m := Zpos m; shr_r := false; shr_s := false |}, e).
Proof.
  intros Hc. unfold shr_fexp, fexp, emin. cbn [Zdigits2 shr_record_of_loc].
  rewrite (digits2_shift 52 m : Zpos (digits2_pos (4503599627370496 * m)) = _).
  replace (Z.max (Zpos (digits2_pos m) + Z.of_nat 52 + (e + -52) - 53) (3 - 1024 - 53)
           - (e + -52)) with 52 by lia.
  unfold shr. rewrite shr_shift_52. f_equal. lia.
Qed.

Lemma shr_fexp_exact (m : positive) (e : Z) :
  Z.max (Zpos (digits2_pos m) + e - 53) (3 - 1024 - 53) = e ->
  shr_fexp 53 1024 (Zpos m) e loc_Exact
  = ({| shr_m := Zpos m; shr_r := false; shr_s := false |}, e).
Proof.
  intros Hc. unfold shr_fexp, fexp, emin. cbn [Zdigits2 shr_record_of_loc].
  replace (Z.max (Zpos (digits2_pos m) + e - 53) (3 - 1024 - 53) - e) with 0 by lia.
  reflexivity.
Qed.

Lemma fmul_unit (s sd : bool) (m : positive) (e : Z) :
  bounded prec emax m e = true ->
  fmul (S754_finite s m e) (S754_finite sd 4503599627370496 (-52))
  = S754_finite (xorb s sd) m e.
Proof.
  unfold bounded, canonical_mantissa, fexp, emin, prec, emax.
  intros Hb. apply andb_prop in Hb as [Hc He]. apply Z.eqb_eq in Hc.
  unfold fmul, SFmul, prec, emax. rewrite Pos.mul_comm.
  unfold binary_round_aux. rewrite (shr_fexp_unit m e Hc).
  cbn [shr_m loc_of_shr_record round_nearest_even].
  rewrite (shr_fexp_exact m e Hc). cbn [shr_m]. by rewrite He.
Qed.

(** The sign of a float change times the direction +1 or -1. *)
Lemma gt0_mul_direction (p : float) :
  valid_binary prec emax p = true ->
  gt0 (PyNum.mul (PFloat p) (PInt 1)) = fltb zero p /\
  gt0 (PyNum.mul (PFloat p) (PInt (-1))) = fltb p zero.
Proof.
  intros Hv. unfold PyNum.mul, gt0, to_float.
  change (of_int 1) with (S754_finite false 4503599627370496 (-52)).
  change (of_int (-1)) with (S754_finite true 4503599627370496 (-52)).
  destruct p as [s|s| |s m e].
  - split; reflexivity.
  - split; destruct s; reflexivity.
  - split; reflexivity.
  - rewrite !(fmul_unit _ _ m e Hv). split; destruct s; reflexivity.
Qed.

(** C4.  For every percentage change [p] and every direction [d], so
    for -1, 0 and +1, the classifier reports adverse exactly when
    [p * d > 0] or [d = 0].  For a binary64 change this is: with
    direction +1 exactly when [p > 0], with direction -1 exactly when
    [p < 0], with direction 0 always.  Direction -1 with +5 is not
    adverse, direction -1 with -5 is adverse. *)
Theorem is_regression_rule :
  (forall (p : num) (d : Z),
     is_regression p d = true <-> (gt0 (PyNum.mul p (PInt d)) = true \/ d = 0)) /\
  (forall p : float,
     valid_binary prec emax p = true ->
     is_regression (PFloat p) 1 = fltb zero p /\
     is_regression (PFloat p) (-1) = fltb p zero) /\
  (forall p : num, is_regression p 0 = true) /\
  is_regression (PFloat f_5) (-1) = false /\
  is_regression (PFloat f_minus_5) (-1) = true.
Proof.
  split.
  { intros p d. unfold is_regression. rewrite orb_true_iff, Z.eqb_eq. tauto. }
  split.
  { intros p Hv. unfold is_regression. cbn [Z.eqb]. rewrite !orb_false_r.
    by apply gt0_mul_direction. }
  split.
  { intros p. unfold is_regression. apply orb_true_r. }
  split; vm_compute; reflexivity.
Qed.

Lemma is_regression_rule_witness :
  valid_binary prec emax f_minus_5 = true /\
  is_regression (PFloat f_minus_5) 1 = fltb zero f_minus_5 /\
  is_regression (PFloat f_minus_5) (-1) = fltb f_minus_5 zero.
Proof.
  split; [reflexivity|].
  apply (proj1 (proj2 is_regression_rule) f_minus_5). reflexivity.
Defined.

(** C9.  A changepoint stat whose mean before is zero has the
    percentage change 0, whatever the mean after; it is adverse exactly
    when the direction of its metric is 0, so for the directions -1 and
    +1 it is benign; its marker and its summary token are red for the
    direction 0 and green otherwise. *)
Theorem zero_mean_before_is_benign_unless_undirected
  (cp : change_point) (config : metric_config) (values : list float)
  (metrics_config : list (string * metric_config)) (metric_name : string) :
  feqb (mean_1 (stats cp)) zero = true ->
  pct_change_of (stats cp) = PInt 0 /\
  (forall d : Z, is_regression (pct_change_of (stats cp)) d = true <-> d = 0) /\
  is_regression (pct_change_of (stats cp)) (-1) = false /\
  is_regression (pct_change_of (stats cp)) 1 = false /\
  (forall m : marker,
     changepoint_marker config values cp = Some m ->
     mk_color m = if direction_of config =? 0 then "#ff4444" else "#39ff14") /\
  cp_part metrics_config metric_name cp
  = "<span style='color:"
    +:+ (if direction_of (default {| direction := None |}
                            (assoc_get metric_name metrics_config)) =? 0
         then "#ff4444" else "#39ff14")
    +:+ "'>" +:+ metric_name +:+ ": +0.0%</span>".
Proof.
  intros Hzero.
  assert (Hpct : pct_change_of (stats cp) = PInt 0).
  { unfold pct_change_of. by rewrite Hzero. }
  assert (Hreg : forall d : Z, is_regression (PInt 0) d = (d =? 0)).
  { intros d. unfold is_regression. by rewrite zero_pct_not_positive. }
  rewrite Hpct.
  split; [done|].
  split; [intros d; by rewrite Hreg, Z.eqb_eq|].
  split; [done|]. split; [done|].
  split.
  - intros m Hm. unfold changepoint_marker in Hm.
    destruct (values !! index cp) as [cp_value|]; [|done].
    injection Hm as <-. cbn [mk_color]. by rewrite Hpct, Hreg.
  - unfold cp_part. by rewrite Hpct, Hreg.
Qed.

Lemma zero_mean_before_is_benign_unless_undirected_witness :
  feqb (mean_1 stats_from_zero) zero = true /\
  pct_change_of stats_from_zero = PInt 0 /\
  is_regression (pct_change_of stats_from_zero) 1 = false /\
  cp_part [("podLatency", {| direction := Some 1 |})] "podLatency"
    {| index := 3; stats := stats_from_zero |}
  = "<span style='color:#39ff14'>podLatency: +0.0%</span>".
Proof.
  split; [reflexivity|].
  destruct (zero_mean_before_is_benign_unless_undirected
              {| index := 3; stats := stats_from_zero |}
              {| direction := Some 1 |} [f_10; f_10; f_10; f_1000]
              [("podLatency", {| direction := Some 1 |})] "podLatency" eq_refl)
    as (Hpct & _ & _ & Hpos & _ & Hpart).
  split; [exact Hpct|]. split; [exact Hpos|]. exact Hpart.
Defined.

(** C3, as stated, fails: for the constant series [10.0] the y axis is
    [9.85, 10.15], a padding of 0.15, where 10% of the magnitude would
    give [9, 11]. *)
Lemma y_axis_pad_of_constant_series :
  y_axis_range [f_10] = (f_9_85, f_10_15) /\
  claimed_y_axis_range [f_10] = (f_9, f_11) /\
  y_axis_range [f_10] <> claimed_y_axis_range [f_10].
Proof.
  split; [vm_compute; reflexivity|].
  split; [vm_compute; reflexivity|].
  vm_compute. discriminate.
Qed.

(** C3, amended.  The y axis of a panel is [min - pad, max + pad] with
    pad 15% of a span: the value span [max - min] when [max != min];
    otherwise one tenth of [|max|] when that tenth is not zero; otherwise
    1, which gives the pad 0.15. *)
Theorem y_axis_range_padding (values : list float) :
  let y_min := series_min values in
  let y_max := series_max values in
  let pad := y_pad_of y_min y_max in
  y_axis_range values = (fsub y_min pad, fadd y_max pad) /\
  (feqb y_max y_min = false -> pad = fmul (fsub y_max y_min) f0_15) /\
  (feqb y_max y_min = true ->
   feqb (fmul (fabs y_max) f0_1) zero = false ->
   pad = fmul (fmul (fabs y_max) f0_1) f0_15) /\
  (feqb y_max y_min = true ->
   feqb (fmul (fabs y_max) f0_1) zero = true ->
   pad = f0_15).
Proof.
  intros y_min y_max pad. subst pad. unfold y_pad_of, y_span_of, PyFloat.truthy.
  split; [reflexivity|].
  split; [intros ->; reflexivity|].
  split; [intros -> ->; reflexivity|].
  intros -> ->. vm_compute. reflexivity.
Qed.

Lemma y_axis_range_padding_witness :
  feqb (series_max [f_10]) (series_min [f_10]) = true /\
  feqb (fmul (fabs (series_max [f_10])) f0_1) zero = false /\
  y_pad_of (series_min [f_10]) (series_max [f_10])
  = fmul (fmul (fabs (series_max [f_10])) f0_1) f0_15.
Proof.
  split; [reflexivity|]. split; [reflexivity|].
  apply (proj1 (proj2 (proj2 (y_axis_range_padding [f_10])))); reflexivity.
Defined.

End VisualizationClaims.

(** ** Properties of the workload names *)

Section WorkloadNames.

Import PySlice OsPath ReportFiles.

Lemma has_char_app (c : ascii) (a b : string) :
  has_char c (a +:+ b) = has_char c a || has_char c b.
Proof.
  induction a as [|x a IH]; simpl; [done|]. rewrite IH. by rewrite orb_assoc.
Qed.

Lemma has_char_take (c : ascii) (n : nat) (s : string) :
  has_char c (take n s) = true -> has_char c s = true.
Proof.
  revert n. induction s as [|x s IH]; intros [|n]; simpl; try done.
  intros H. apply orb_true_iff in H as [H|H]; apply orb_true_iff; [by left|].
  right. by apply (IH n).
Qed.

Lemma has_char_drop (c : ascii) (n : nat) (s : string) :
  has_char c (drop n s) = true -> has_char c s = true.
Proof.
  revert n. induction s as [|x s IH]; intros [|n]; simpl; try done.
  intros H. apply orb_true_iff. right. by apply (IH n).
Qed.

(** The parts of a split hold no separator. *)
Lemma split_no_sep (sep : ascii) (s : string) :
  Forall (fun part => has_char sep part = false) (PyStr.split sep s).
Proof.
  induction s as [|c s IH]; simpl.
  - by repeat constructor.
  - destruct (Ascii.eqb c sep) eqn:Hc.
    + by constructor.
    + destruct (PyStr.split sep s) as [|h t]; inversion IH; subst;
        constructor; simpl; try done; by rewrite Hc.
Qed.

Lemma split_nonempty (sep : ascii) (s : string) : PyStr.split sep s <> [].
Proof.
  destruct s as [|c s]; simpl; [done|].
  destruct (Ascii.eqb c sep); [done|]. by destruct (PyStr.split sep s).
Qed.

(** A string without the separator is its only part. *)
Lemma split_without_sep (sep : ascii) (s : string) :
  has_char sep s = false -> PyStr.split sep s = [s].
Proof.
  induction s as [|c s IH]; simpl; [done|].
  intros H. apply orb_false_iff in H as [Hc Hs]. rewrite Hc, (IH Hs). done.
Qed.

(** Splitting at a separator splits the parts. *)
Lemma split_app (sep : ascii) (a b : string) :
  PyStr.split sep (a +:+ String sep b) = PyStr.split sep a ++ PyStr.split sep b.
Proof.
  induction a as [|c a IH]; simpl.
  - by rewrite Ascii.eqb_refl.
  - destruct (Ascii.eqb c sep); [by rewrite IH|].
    rewrite IH. pose proof (split_nonempty sep a) as Hne.
    by destruct (PyStr.split sep a).
Qed.

Lemma basename_no_slash (p : string) : has_char "/" (basename p) = false.
Proof.
  unfold basename. pose proof (split_no_sep "/" p) as Hall.
  pose proof (split_nonempty "/" p) as Hne.
  induction (PyStr.split "/" p) as [|h t IH]; [done|].
  inversion Hall; subst. destruct t as [|h' t']; [done|].
  apply IH; done.
Qed.

(** The name of a file in a directory. *)
Lemma basename_in_dir (dir name : string) :
  has_char "/" name = false -> basename (dir +:+ String "/" name) = name.
Proof.
  intros Hname. unfold basename. rewrite split_app, (split_without_sep _ _ Hname).
  apply List.last_last.
Qed.

Lemma basename_plain (name : string) :
  has_char "/" name = false -> basename name = name.
Proof. intros Hname. unfold basename. by rewrite (split_without_sep _ _ Hname). Qed.

Lemma has_char_cut_last_dot (c : ascii) (s : string) :
  has_char c (cut_last_dot s) = true -> has_char c s = true.
Proof.
  induction s as [|x s IH]; simpl; [done|].
  destruct (has_char "." s); simpl.
  - intros H. apply orb_true_iff in H as [H|H]; apply orb_true_iff; auto.
  - destruct (Ascii.eqb x "."); simpl; done.
Qed.

Lemma has_char_splitext_root (c : ascii) (s : string) :
  has_char c (splitext_root s) = true -> has_char c s = true.
Proof.
  induction s as [|x s IH]; simpl; [done|].
  destruct (has_char "." s); simpl; [|done].
  destruct (Ascii.eqb x "."); simpl; intros H;
    apply orb_true_iff in H as [H|H]; apply orb_true_iff; auto.
  right. by apply has_char_cut_last_dot.
Qed.

Lemma has_char_strip_prefix (c : ascii) (name prefix : string) :
  has_char c (strip_prefix name prefix) = true -> has_char c name = true.
Proof.
  unfold strip_prefix. destruct (startswith prefix name); [|done].
  apply has_char_drop.
Qed.

(** X1.  A workload name never holds a slash: it is cut out of the last
    component of the path. *)
Theorem derive_workload_name_no_slash (file_path : string) :
  has_char "/" (_derive_workload_name file_path) = false.
Proof.
  apply not_true_iff_false. intros H. unfold _derive_workload_name in H.
  assert (Hname : has_char "/"
            (fold_left strip_prefix ["orion-"; "junit_"; "output_"]
               (splitext_root (basename file_path))) = true).
  { destruct (endswith _ _); [by apply has_char_take in H|done]. }
  cbn [fold_left] in Hname.
  do 3 apply has_char_strip_prefix in Hname.
  apply has_char_splitext_root in Hname.
  by rewrite basename_no_slash in Hname.
Qed.

Lemma cut_last_dot_ext (s ext : string) :
  has_char "." ext = false -> cut_last_dot (s +:+ String "." ext) = s.
Proof.
  intros Hext. induction s as [|c s IH]; simpl.
  - by rewrite Hext.
  - rewrite has_char_app. simpl. rewrite orb_true_r. by rewrite IH.
Qed.

(** The extension goes, whatever dots the stem holds. *)
Lemma splitext_root_ext (c : ascii) (s ext : string) :
  c <> "."%char -> has_char "." ext = false ->
  splitext_root (String c s +:+ String "." ext) = String c s.
Proof.
  intros Hc Hext. simpl. rewrite has_char_app. simpl. rewrite orb_true_r.
  apply Ascii.eqb_neq in Hc. rewrite Hc. by rewrite cut_last_dot_ext.
Qed.

Lemma startswith_app (p s : string) : startswith p (p +:+ s) = true.
Proof.
  unfold startswith. induction p as [|c p IH]; simpl; [by destruct s|].
  by destruct (ascii_dec c c).
Qed.

Lemma str_drop_app (p s : string) : drop (String.length p) (p +:+ s) = s.
Proof. induction p as [|c p IH]; simpl; [by destruct s|done]. Qed.

Lemma str_take_app (p s : string) : take (String.length p) (p +:+ s) = p.
Proof. induction p as [|c p IH]; simpl; [by destruct s|by rewrite IH]. Qed.

Lemma strip_prefix_app (p s : string) : strip_prefix (p +:+ s) p = s.
Proof. unfold strip_prefix. by rewrite startswith_app, str_drop_app. Qed.

(** X2.  The name of a workload comes back from the name of its file:
    for a workload [w] that starts with no dot and with none of the
    three prefixes, holds no slash and does not end in [-junit], the
    file [<prefix><w>.<ext>], in a directory or not, with one of the
    prefixes or none and an extension without dot or slash, is the file
    of the workload [w]. *)
Theorem derive_workload_name_round_trip (dir prefix w ext : string) (c : ascii) (w' : string) :
  In prefix [""; "orion-"; "junit_"; "output_"] ->
  w = String c w' -> c <> "."%char ->
  Forall (fun p => startswith p w = false) ["orion-"; "junit_"; "output_"] ->
  endswith "-junit" w = false ->
  has_char "/" w = false ->
  has_char "." ext = false ->
  has_char "/" ext = false ->
  _derive_workload_name (dir +:+ "/" +:+ prefix +:+ w +:+ "." +:+ ext) = w /\
  _derive_workload_name (prefix +:+ w +:+ "." +:+ ext) = w.
Proof.
  intros Hprefix Hw Hc Hstarts Hends Hslash Hdot Hext.
  apply Forall_cons in Hstarts as [Ho Hstarts].
  apply Forall_cons in Hstarts as [Hj Hstarts].
  apply Forall_cons in Hstarts as [Hu _].
  set (name := prefix +:+ w +:+ "." +:+ ext).
  assert (Hname : has_char "/" name = false).
  { subst name. rewrite !has_char_app, Hslash. cbn [has_char Ascii.eqb]. rewrite Hext.
    destruct Hprefix as [<-|[<-|[<-|[<-|[]]]]]; reflexivity. }
  assert (Hroot : splitext_root name = prefix +:+ w).
  { subst name.
    destruct Hprefix as [<-|[<-|[<-|[<-|[]]]]].
    - subst w. by apply splitext_root_ext.
    - by apply (splitext_root_ext "o" ("rion-" +:+ w)).
    - by apply (splitext_root_ext "j" ("unit_" +:+ w)).
    - by apply (splitext_root_ext "o" ("utput_" +:+ w)). }
  assert (Hstem : fold_left strip_prefix ["orion-"; "junit_"; "output_"] (prefix +:+ w) = w).
  { cbn [fold_left].
    destruct Hprefix as [<-|[<-|[<-|[<-|[]]]]].
    - change ("" +:+ w) with w. unfold strip_prefix. by rewrite Ho, Hj, Hu.
    - rewrite strip_prefix_app. unfold strip_prefix. by rewrite Hj, Hu.
    - change (strip_prefix ("junit_" +:+ w) "orion-") with ("junit_" +:+ w).
      rewrite strip_prefix_app. unfold strip_prefix. by rewrite Hu.
    - change (strip_prefix ("output_" +:+ w) "orion-") with ("output_" +:+ w).
      change (strip_prefix ("output_" +:+ w) "junit_") with ("output_" +:+ w).
      by rewrite strip_prefix_app. }
  assert (Hderive : forall p, basename p = name -> _derive_workload_name p = w).
  { intros p Hp. unfold _derive_workload_name. by rewrite Hp, Hroot, Hstem, Hends. }
  split; apply Hderive.
  - by apply (basename_in_dir dir name).
  - by apply basename_plain.
Qed.

Lemma derive_workload_name_round_trip_witness :
  In "orion-" [""; "orion-"; "junit_"; "output_"] /\
  "node-density" = String "n" "ode-density" /\
  "n"%char <> "."%char /\
  Forall (fun p => startswith p "node-density" = false) ["orion-"; "junit_"; "output_"] /\
  endswith "-junit" "node-density" = false /\
  has_char "/" "node-density" = false /\
  has_char "." "json" = false /\
  has_char "/" "json" = false /\
  _derive_workload_name ("results" +:+ "/" +:+ "orion-" +:+ "node-density" +:+ "." +:+ "json")
  = "node-density" /\
  _derive_workload_name ("orion-" +:+ "node-density" +:+ "." +:+ "json") = "node-density".
Proof.
  split; [right; left; reflexivity|]. split; [reflexivity|]. split; [discriminate|].
  split; [repeat constructor|]. split; [reflexivity|]. split; [reflexivity|].
  split; [reflexivity|]. split; [reflexivity|].
  apply (derive_workload_name_round_trip "results" "orion-" "node-density" "json"
           "n" "ode-density");
    [right; left; reflexivity|reflexivity|discriminate|repeat constructor
    |reflexivity|reflexivity|reflexivity|reflexivity].
Defined.

End WorkloadNames.

(** ** Properties of the loader *)

Section LoaderProps.

Import PySlice OsPath Report ReportFiles.

Variable files : string -> option loaded.





End LoaderProps.

(** ** Further properties of the PR and label helpers *)

Section Correlation.

Import PySlice Report Spec MoreExamples.

Lemma sort_prs_fold (prs : list string) (components : gset string) :
  forall matching others : list string,
  fold_left
    (fun '((matching, others) : list string * list string) pr_url =>
       if is_related pr_url components
       then (matching ++ [pr_url], others)
       else (matching, others ++ [pr_url]))
    prs (matching, others)
  = (matching ++ List.filter (fun pr_url => is_related pr_url components) prs,
     others ++ List.filter (fun pr_url => negb (is_related pr_url components)) prs).
Proof.
  induction prs as [|pr_url prs IH]; intros matching others; cbn [fold_left List.filter].
  - by rewrite !app_nil_r.
  - destruct (is_related pr_url components); cbn [negb]; rewrite IH;
      by rewrite <- app_assoc.
Qed.

Lemma sort_prs_filter (prs : list string) (components : gset string) :
  _sort_prs_by_relevance prs components
  = (List.filter (fun pr_url => is_related pr_url components) prs,
     List.filter (fun pr_url => negb (is_related pr_url components)) prs).
Proof. unfold _sort_prs_by_relevance. by rewrite sort_prs_fold. Qed.

(** X4.  The two lists are the related and the unrelated URLs, each in
    the order of the input, and together they are a permutation of the
    input: no URL is lost, none is listed twice. *)
Theorem sort_prs_by_relevance_partition (prs : list string) (components : gset string) :
  (_sort_prs_by_relevance prs components).1
  = List.filter (fun pr_url => is_related pr_url components) prs
  /\ (_sort_prs_by_relevance prs components).2
     = List.filter (fun pr_url => negb (is_related pr_url components)) prs
  /\ (_sort_prs_by_relevance prs components).1
     ++ (_sort_prs_by_relevance prs components).2 ≡ₚ prs
  /\ (length (_sort_prs_by_relevance prs components).1
      + length (_sort_prs_by_relevance prs components).2 = length prs)%nat.
Proof.
  assert (Hperm : List.filter (fun pr_url => is_related pr_url components) prs
                  ++ List.filter (fun pr_url => negb (is_related pr_url components)) prs
                  ≡ₚ prs).
  { induction prs as [|pr_url prs IH]; cbn [List.filter]; [done|].
    destruct (is_related pr_url components); cbn [negb].
    - cbn. by rewrite IH.
    - rewrite <- Permutation_middle. by rewrite IH. }
  rewrite sort_prs_filter. cbn [fst snd]. split; [done|]. split; [done|]. split; [done|].
  by rewrite <- length_app, Hperm.
Qed.

Lemma label_parts_empty : label_parts "" = [].
Proof. reflexivity. Qed.

(** X5.  When no regressed metric has a label, there is no component
    and every URL is in the other list. *)
Theorem unlabelled_metrics_relate_no_pr (regressed : list (string * metric_info))
  (prs : list string) :
  Forall (fun item => default "" (labels item.2) = "") regressed ->
  _extract_components regressed = ∅ /\
  _sort_prs_by_relevance prs (_extract_components regressed) = ([], prs).
Proof.
  intros Hall.
  assert (Hempty : _extract_components regressed = ∅).
  { apply set_eq. intros x. rewrite elem_of_extract_components. split.
    - intros (item & Hin & Hx). rewrite Forall_forall in Hall.
      rewrite (Hall item Hin), label_parts_empty in Hx. by apply elem_of_nil in Hx.
    - intros Hx. by apply not_elem_of_empty in Hx. }
  split; [exact Hempty|]. rewrite Hempty, sort_prs_filter.
  assert (Hnone : forall pr_url, is_related pr_url ∅ = false).
  { intros pr_url. unfold is_related. by rewrite elements_empty. }
  f_equal.
  - induction prs as [|pr_url prs IH]; cbn [List.filter]; [done|]. by rewrite Hnone.
  - induction prs as [|pr_url prs IH]; cbn [List.filter]; [done|].
    rewrite Hnone. cbn [negb]. by rewrite IH.
Qed.

Lemma split_app_lit (sep : ascii) (a b : string) :
  PyStr.split sep (a +:+ String sep "" +:+ b) = PyStr.split sep a ++ PyStr.split sep b.
Proof. exact (split_app sep a b). Qed.

Lemma rstrip_without (c : ascii) (s : string) :
  has_char c s = false -> PyStr.rstrip (PyStr.one_of (String c "")) s = s.
Proof.
  induction s as [|x s IH]; simpl; [done|].
  intros H. apply orb_false_iff in H as [Hx Hs]. rewrite (IH Hs).
  destruct s; [|done]. unfold PyStr.one_of. simpl. by rewrite Hx.
Qed.

Lemma rstrip_app (p : ascii -> bool) (a b : string) :
  PyStr.rstrip p b <> "" -> PyStr.rstrip p (a +:+ b) = a +:+ PyStr.rstrip p b.
Proof.
  intros Hb. induction a as [|x a IH]; simpl; [done|]. rewrite IH.
  change (String x a +:+ PyStr.rstrip p b) with (String x (a +:+ PyStr.rstrip p b)).
  destruct (a +:+ PyStr.rstrip p b) eqn:Heq; [|done].
  destruct a; simpl in Heq; [done|discriminate].
Qed.

Lemma rstrip_fixed_app (p : ascii -> bool) (a b : string) :
  PyStr.rstrip p b = b /\ b <> "" ->
  PyStr.rstrip p (a +:+ b) = a +:+ b /\ a +:+ b <> "".
Proof.
  intros [Hfix Hne]. split.
  - rewrite rstrip_app; rewrite Hfix; done.
  - destruct a; simpl; done.
Qed.

Lemma rstrip_trailing (p : ascii -> bool) (s : string) (c : ascii) :
  p c = true -> PyStr.rstrip p (s +:+ String c "") = PyStr.rstrip p s.
Proof.
  intros Hc. induction s as [|x s IH]; simpl; [by rewrite Hc|]. by rewrite IH.
Qed.

(** X6.  The repository of a PR URL: for a URL that ends in
    [/<repo>/<kind>/<number>], with or without a trailing slash, the
    repository name is [<repo>] in lower case, and the URL is related
    exactly when some component holds that name or is held by it. *)
Theorem repo_name_of_pr_url (base repo kind num : string) (components : gset string) :
  has_char "/" repo = false ->
  has_char "/" kind = false ->
  has_char "/" num = false ->
  num <> "" ->
  let url := base +:+ "/" +:+ repo +:+ "/" +:+ kind +:+ "/" +:+ num in
  repo_name_of url = PyStr.lower repo /\
  repo_name_of (url +:+ "/") = PyStr.lower repo /\
  (is_related url components = true <->
   exists comp, comp ∈ components /\
     (PyStr.contains comp (PyStr.lower repo) = true \/
      PyStr.contains (PyStr.lower repo) comp = true)).
Proof.
  intros Hrepo Hkind Hnum Hne url.
  assert (Hstrip : PyStr.rstrip (PyStr.one_of "/") url = url).
  { subst url. repeat apply rstrip_fixed_app. split; [|done].
    by apply (rstrip_without "/"). }
  assert (Hname : repo_name_of url = PyStr.lower repo).
  { unfold repo_name_of. rewrite Hstrip. subst url.
    rewrite !split_app_lit.
    rewrite (split_without_sep _ _ Hrepo), (split_without_sep _ _ Hkind),
      (split_without_sep _ _ Hnum).
    pose proof (split_nonempty "/" base) as Hbase.
    rewrite !length_app. cbn [length].
    replace (4 <=? length (PyStr.split "/" base) + (1 + (1 + 1)))%nat with true
      by (symmetry; apply Nat.leb_le; destruct (PyStr.split "/" base); simpl; [done|lia]).
    replace (length (PyStr.split "/" base) + (1 + (1 + 1)) - 3)%nat
      with (length (PyStr.split "/" base) + 0)%nat by lia.
    by rewrite lookup_app_r, Nat.add_0_r, Nat.sub_diag by lia. }
  split; [exact Hname|]. split.
  - unfold repo_name_of. rewrite rstrip_trailing by done.
    unfold repo_name_of in Hname. exact Hname.
  - unfold is_related. rewrite Hname, existsb_exists. split.
    + intros (comp & Hin & Hc). exists comp. split.
      * by apply elem_of_elements, list_elem_of_In.
      * by apply orb_true_iff.
    + intros (comp & Hin & Hc). exists comp. split.
      * by apply list_elem_of_In, elem_of_elements.
      * by apply orb_true_iff.
Qed.

Lemma unlabelled_metrics_relate_no_pr_witness :
  Forall (fun item => default "" (labels item.2) = "") [("cpu", unlabelled_metric)] /\
  _extract_components [("cpu", unlabelled_metric)] = ∅ /\
  _sort_prs_by_relevance ["https://github.com/org/repo/pull/1"]
    (_extract_components [("cpu", unlabelled_metric)])
  = ([], ["https://github.com/org/repo/pull/1"]).
Proof.
  split; [repeat constructor|].
  apply (unlabelled_metrics_relate_no_pr [("cpu", unlabelled_metric)]
           ["https://github.com/org/repo/pull/1"]).
  repeat constructor.
Defined.

Lemma repo_name_of_pr_url_witness :
  has_char "/" "OVN-Kubernetes" = false /\
  has_char "/" "pull" = false /\
  has_char "/" "42" = false /\
  "42" <> "" /\
  let url := "https://github.com/ovn-org" +:+ "/" +:+ "OVN-Kubernetes" +:+ "/"
             +:+ "pull" +:+ "/" +:+ "42" in
  repo_name_of url = PyStr.lower "OVN-Kubernetes" /\
  repo_name_of (url +:+ "/") = PyStr.lower "OVN-Kubernetes" /\
  (is_related url {[ "ovn-kubernetes" ]} = true <->
   exists comp, comp ∈ ({[ "ovn-kubernetes" ]} : gset string) /\
     (PyStr.contains comp (PyStr.lower "OVN-Kubernetes") = true \/
      PyStr.contains (PyStr.lower "OVN-Kubernetes") comp = true)).
Proof.
  split; [reflexivity|]. split; [reflexivity|]. split; [reflexivity|].
  split; [discriminate|].
  apply (repo_name_of_pr_url "https://github.com/ovn-org" "OVN-Kubernetes" "pull" "42"
           {[ "ovn-kubernetes" ]});
    [reflexivity|reflexivity|reflexivity|discriminate].
Defined.

End Correlation.

(** ** The shape of the components *)

Section Components.

Import PySlice Report Spec Examples MoreExamples.






















(** X8.  The components of two groups of metrics are the components of
    the one or of the other, in whatever order the metrics come. *)
Theorem extract_components_union (l l1 l2 : list (string * metric_info)) :
  l ≡ₚ l1 ++ l2 ->
  _extract_components l = _extract_components l1 ∪ _extract_components l2.
Proof.
  intros Hperm. apply set_eq. intros x.
  rewrite elem_of_union, !elem_of_extract_components. split.
  - intros (item & Hin & Hx). rewrite Hperm in Hin.
    apply elem_of_app in Hin as [Hin|Hin]; eauto.
  - intros [(item & Hin & Hx)|(item & Hin & Hx)]; exists item;
      (split; [rewrite Hperm; apply elem_of_app; auto|done]).
Qed.

Lemma extract_components_union_witness :
  [("cpu", unlabelled_metric); ("podLatency", networking_metric None)]
  ≡ₚ [("podLatency", networking_metric None)] ++ [("cpu", unlabelled_metric)] /\
  _extract_components [("cpu", unlabelled_metric); ("podLatency", networking_metric None)]
  = _extract_components [("podLatency", networking_metric None)]
    ∪ _extract_components [("cpu", unlabelled_metric)].
Proof.
  split; [apply perm_swap|].
  apply (extract_components_union
           [("cpu", unlabelled_metric); ("podLatency", networking_metric None)]
           [("podLatency", networking_metric None)] [("cpu", unlabelled_metric)]).
  apply perm_swap.
Defined.


End Components.

(** ** Further properties of the report and of the extractor *)

Section ReportTotals.

Import PyFloat PyNum Report Spec.

Variable tabulate : list (list string) -> list string -> string.






End ReportTotals.

Section CurrentVersion.

Import PyFloat PyNum Report Spec Examples.



End CurrentVersion.

(** ** Runs that come later, and means that do not move *)

Section LaterRuns.

Import PyFloat PyNum Report Spec.

Lemma changepoint_of_ext (data data' : list entry) (i : nat) (e : entry) :
  (forall j : nat, (j < i)%nat -> data !! j = data' !! j) ->
  changepoint_of data i e = changepoint_of data' i e.
Proof.
  intros Hext. unfold changepoint_of. destruct i as [|i]; [done|].
  by rewrite (Hext i) by lia.
Qed.

Lemma emitted_from_ext (data data' rest : list entry) (i : nat) :
  (forall j : nat, (j < i + length rest)%nat -> data !! j = data' !! j) ->
  emitted_from data i rest = emitted_from data' i rest.
Proof.
  revert i. induction rest as [|e rest IH]; intros i Hext; [done|].
  cbn [emitted_from]. rewrite (changepoint_of_ext data data' i e).
  - rewrite (IH (S i)); [done|]. intros j Hj. apply Hext. cbn [length]. lia.
  - intros j Hj. apply Hext. lia.
Qed.

Lemma emitted_from_app (data rest more : list entry) (i : nat) :
  emitted_from data i (rest ++ more)
  = emitted_from data i rest ++ emitted_from data (i + length rest) more.
Proof.
  revert i. induction rest as [|e rest IH]; intros i.
  - cbn. by rewrite Nat.add_0_r.
  - cbn [app emitted_from length]. rewrite (IH (S i)), <- app_assoc.
    by replace (S i + length rest)%nat with (i + S (length rest))%nat by lia.
Qed.

(** X12.  Runs that are added at the end change no changepoint found
    before: the changepoints of a run list open the changepoints of every
    list that continues it. *)
Theorem extract_changepoints_of_longer_list (data more : list entry) :
  exists cps later : list changepoint,
    extract_changepoints data = Some cps /\
    extract_changepoints (data ++ more) = Some (cps ++ later) /\
    (length later <= length more)%nat.
Proof.
  exists (emitted_from data 0 data),
    (emitted_from (data ++ more) (length data) more).
  split; [apply extract_changepoints_emitted|]. split.
  - rewrite extract_changepoints_emitted, emitted_from_app. f_equal. f_equal.
    apply emitted_from_ext. intros j Hj. by rewrite lookup_app_l by lia.
  - generalize (length data). generalize (data ++ more).
    induction more as [|e more IH]; intros l n; [done|].
    cbn [emitted_from length]. rewrite length_app. specialize (IH l (S n)).
    destruct (emits e); simpl; lia.
Qed.

End LaterRuns.

(** ** Properties of the daemon's filter *)

Section DaemonFilter.

Import PyFloat PyNum Report Spec Daemon Examples.

Lemma filter_changepoints_flagged (value : list entry) :
  filter_changepoints_of value = List.filter flagged value.
Proof.
  unfold filter_changepoints_of. induction value as [|e value IH]; simpl; [done|].
  by rewrite IH, flagged_default.
Qed.

Lemma filter_emits_flagged (value : list entry) :
  List.filter emits (List.filter flagged value) = List.filter emits value.
Proof.
  induction value as [|e value IH]; simpl; [done|]. unfold emits at 2.
  destruct (flagged e) eqn:Hf; simpl; [|done].
  unfold emits at 1. rewrite Hf. simpl. by rewrite IH.
Qed.

Lemma emitted_from_current_version (data : list entry) (rest : list entry) (i : nat) :
  map cp_current_version (emitted_from data i rest)
  = map (fun e => PyStr.or_else (default "" (current_version (github_ctx_of e)))
                    (default "unknown" (ocpVersion e)))
      (List.filter emits rest).
Proof.
  revert i. induction rest as [|e rest IH]; intros i; simpl; [done|].
  rewrite map_app, IH. by destruct (emits e).
Qed.

(** X13.  The filter of the daemon is on for the parameter ["true"] and
    for no other; when on, it keeps every key of the result and, under
    each key, exactly the runs flagged as changepoints, in their order;
    filtering again changes nothing. *)
Theorem daemon_filter_keeps_flagged_runs (parameter : string)
  (result : gmap string (list entry)) :
  exists filtered : gmap string (list entry),
    respond parameter (Some result) = Result filtered /\
    dom filtered = dom result /\
    (parameter <> "true" -> filtered = result) /\
    (parameter = "true" ->
     (forall key value, filtered !! key = Some value ->
        Forall (fun x => is_changepoint x = Some true) value /\
        exists value0, result !! key = Some value0 /\ value `sublist_of` value0 /\
          forall x, x ∈ value <-> x ∈ value0 /\ is_changepoint x = Some true) /\
     respond parameter (Some filtered) = Result filtered).
Proof.
  unfold respond. destruct (String.eqb parameter "true") eqn:Hp.
  - apply String.eqb_eq in Hp. exists (filter_changepoints_of <$> result).
    split; [done|]. split; [apply dom_fmap_L|]. split; [done|]. intros _.
    assert (Hflag : forall x, flagged x = true <-> is_changepoint x = Some true).
    { intros x. unfold flagged. apply bool_decide_eq_true. }
    split.
    + intros key value Hkey. rewrite lookup_fmap in Hkey.
      destruct (result !! key) as [value0|] eqn:Hres; [|done].
      injection Hkey as <-. rewrite filter_changepoints_flagged. split.
      * apply Forall_forall. intros x Hx.
        apply list_elem_of_In, filter_In in Hx as [_ Hx]. by apply Hflag.
      * exists value0. split; [done|]. split.
        -- clear Hres. induction value0 as [|x value0 IH]; simpl; [done|].
           destruct (flagged x); [by apply sublist_skip|by apply sublist_cons].
        -- intros x. rewrite !list_elem_of_In, filter_In, Hflag. done.
    + f_equal. apply map_eq. intros key. rewrite !lookup_fmap.
      destruct (result !! key) as [value0|]; [|done]. cbn. f_equal.
      rewrite !filter_changepoints_flagged.
      induction value0 as [|x value0 IH]; simpl; [done|].
      destruct (flagged x) eqn:Hx; simpl; [|done]. by rewrite Hx, IH.
  - apply String.eqb_neq in Hp. exists result. done.
Qed.

Lemma daemon_filter_keeps_flagged_runs_witness :
  "true" = "true" /\
  exists filtered : gmap string (list entry),
    respond "true" (Some {[ "node-density" := [run_quiet; run_regressed] ]})
    = Result filtered /\
    (forall key value, filtered !! key = Some value ->
       Forall (fun x => is_changepoint x = Some true) value /\
       exists value0,
         ({[ "node-density" := [run_quiet; run_regressed] ]} : gmap string (list entry))
           !! key = Some value0 /\
         value `sublist_of` value0 /\
         forall x, x ∈ value <-> x ∈ value0 /\ is_changepoint x = Some true) /\
    respond "true" (Some filtered) = Result filtered.
Proof.
  split; [reflexivity|].
  destruct (daemon_filter_keeps_flagged_runs "true"
              {[ "node-density" := [run_quiet; run_regressed] ]})
    as (filtered & Hres & _ & _ & Hon).
  exists filtered. split; [exact Hres|]. exact (Hon eq_refl).
Defined.

(** X14.  The report reads the same changepoints from a run list and
    from the list the daemon filters out of it: the same current
    versions, build URLs, PRs and regressed metrics, in the same order.
    Only the previous versions may differ, since they are read from the
    neighbour in the list. *)
Theorem extract_changepoints_of_filtered_runs (data : list entry) :
  exists cps filtered_cps : list changepoint,
    extract_changepoints data = Some cps /\
    extract_changepoints (filter_changepoints_of data) = Some filtered_cps /\
    map cp_current_version filtered_cps = map cp_current_version cps /\
    map cp_build_url filtered_cps = map cp_build_url cps /\
    map cp_prs filtered_cps = map cp_prs cps /\
    map cp_regressed_metrics filtered_cps = map cp_regressed_metrics cps.
Proof.
  exists (emitted_from data 0 data),
    (emitted_from (filter_changepoints_of data) 0 (filter_changepoints_of data)).
  split; [apply extract_changepoints_emitted|].
  split; [apply extract_changepoints_emitted|].
  rewrite !emitted_from_current_version, !emitted_from_build_url, !emitted_from_prs,
    !emitted_from_regressed.
  by rewrite filter_changepoints_flagged, filter_emits_flagged.
Qed.

End DaemonFilter.

(** ** Properties of the labels, markers and title of the figure *)

Section FigureProps.

Import PySlice PyFloat PyNum Visualization Figure.

Lemma str_length_take (n : nat) (s : string) : (String.length (take n s) <= n)%nat.
Proof.
  revert n. induction s as [|c s IH]; intros [|n]; simpl; try lia.
  specialize (IH n). lia.
Qed.

Lemma str_length_drop (n : nat) (s : string) :
  String.length (drop n s) = (String.length s - n)%nat.
Proof. revert n. induction s as [|c s IH]; intros [|n]; simpl; try done. Qed.

Lemma split_str_nonempty (sep : string) (skip : nat) (s : string) :
  split_str sep skip s <> [].
Proof.
  revert skip. induction s as [|c s IH]; intros skip; cbn [split_str]; [done|].
  destruct skip; [|apply IH].
  destruct (String.prefix sep (String c s)); [done|].
  by destruct (split_str sep 0 s).
Qed.

Lemma str_length_append (a b : string) :
  String.length (a +:+ b) = (String.length a + String.length b)%nat.
Proof.
  induction a as [|c a IH]; [done|].
  change (String c a +:+ b) with (String c (a +:+ b)). simpl. by rewrite IH.
Qed.

(** Where the separator occurs, there are two parts at least. *)
Lemma split_str_contains (sep : string) (s : string) :
  sep <> "" -> PyStr.contains sep s = true -> (2 <= length (split_str sep 0 s))%nat.
Proof.
  intros Hsep. induction s as [|c s IH]; cbn [split_str PyStr.contains].
  - destruct sep; [done|]. simpl. discriminate.
  - intros H.
    destruct (String.prefix sep (String c s)) eqn:Hp.
    + pose proof (split_str_nonempty sep (String.length sep - 1) s) as Hne.
      destruct (split_str sep (String.length sep - 1) s); [done|]. simpl. lia.
    + simpl in H. specialize (IH H).
      destruct (split_str sep 0 s) as [|h t]; simpl in *; lia.
Qed.

(** X15.  The short version label is always there and has at most 20
    characters: for a label that holds [nightly-] it is [nightly-] with
    at most five characters more, for any other the first 20 characters
    of the label. *)
Theorem short_version_is_short (v : string) :
  exists label : string,
    _short_version v = Some label /\
    (String.length label <= 20)%nat /\
    (PyStr.contains "nightly-" v = true ->
     exists rest, label = "nightly-" +:+ rest /\ (String.length rest <= 5)%nat) /\
    (PyStr.contains "nightly-" v = false -> label = take 20 v).
Proof.
  unfold _short_version. destruct (PyStr.contains "nightly-" v) eqn:Hc.
  - pose proof (split_str_contains "nightly-" v ltac:(done) Hc) as Hlen.
    destruct (split_str "nightly-" 0 v) as [|p0 [|p1 parts]]; simpl in Hlen; try lia.
    cbn [lookup list_lookup].
    assert (Hshort : (String.length (drop 5 (take 10 p1)) <= 5)%nat).
    { rewrite str_length_drop. pose proof (str_length_take 10 p1). lia. }
    eexists. split; [reflexivity|].
    split; [rewrite str_length_append; change (String.length "nightly-") with 8%nat; lia|].
    split; [|done].
    intros _. by eexists.
  - eexists. split; [reflexivity|]. split; [apply str_length_take|]. done.
Qed.

Lemma split_str_before (pre s : string) :
  has_char "n" pre = false ->
  split_str "nightly-" 0 (pre +:+ s)
  = (pre +:+ hd "" (split_str "nightly-" 0 s)) :: tl (split_str "nightly-" 0 s).
Proof.
  intros Hpre. induction pre as [|c pre IH].
  - pose proof (split_str_nonempty "nightly-" 0 s). change ("" +:+ s) with s.
    destruct (split_str "nightly-" 0 s); [done|reflexivity].
  - simpl in Hpre. apply orb_false_iff in Hpre as [Hc Hpre].
    change (String c pre +:+ s) with (String c (pre +:+ s)).
    cbn [split_str]. 
    assert (Hno : String.prefix "nightly-" (String c (pre +:+ s)) = false).
    { cbn [String.prefix]. destruct (ascii_dec "n" c) as [<-|]; [done|done]. }
    rewrite Hno, (IH Hpre). done.
Qed.

Lemma split_str_skip (sep p s : string) :
  split_str sep (String.length p) (p +:+ s) = split_str sep 0 s.
Proof.
  induction p as [|c p IH]; [done|].
  change (String c p +:+ s) with (String c (p +:+ s)). exact IH.
Qed.

Lemma split_str_nightly (s : string) :
  split_str "nightly-" 0 ("nightly-" +:+ s) = "" :: split_str "nightly-" 0 s.
Proof.
  pose proof (startswith_app "nightly-" s) as Hp. unfold startswith in Hp.
  change ("nightly-" +:+ s) with (String "n" ("ightly-" +:+ s)) in *.
  cbn [split_str]. rewrite Hp.
  exact (f_equal (cons "") (split_str_skip "nightly-" "ightly-" s)).
Qed.

Lemma contains_after (sep pre s : string) :
  PyStr.contains sep (pre +:+ sep +:+ s) = true.
Proof.
  induction pre as [|c pre IH].
  - change ("" +:+ sep +:+ s) with (sep +:+ s).
    pose proof (startswith_app sep s) as Hp. unfold startswith in Hp.
    destruct (sep +:+ s); cbn [PyStr.contains]; by rewrite Hp.
  - change (String c pre +:+ sep +:+ s) with (String c (pre +:+ sep +:+ s)).
    cbn [PyStr.contains]. rewrite IH. apply orb_true_r.
Qed.

(** X16.  A nightly version becomes [nightly-MM-DD]: for a label
    [<pre>nightly-<date><rest>] with a date of ten characters, and no
    letter [n] in [<pre>] and [<date>], the short label is [nightly-]
    and the characters of the date from the sixth on. *)
Theorem short_version_of_nightly (pre date rest : string) :
  has_char "n" pre = false ->
  has_char "n" date = false ->
  String.length date = 10%nat ->
  _short_version (pre +:+ "nightly-" +:+ date +:+ rest) = Some ("nightly-" +:+ drop 5 date).
Proof.
  intros Hpre Hdate Hlen. unfold _short_version.
  rewrite contains_after, (split_str_before pre _ Hpre), split_str_nightly.
  rewrite (split_str_before date rest Hdate).
  cbn [tl lookup list_lookup]. rewrite <- Hlen at 1. by rewrite str_take_app.
Qed.

Lemma short_version_of_nightly_witness :
  has_char "n" "4.22.0-0." = false /\
  has_char "n" "2026-02-03" = false /\
  String.length "2026-02-03" = 10%nat /\
  _short_version ("4.22.0-0." +:+ "nightly-" +:+ "2026-02-03" +:+ "-002928")
  = Some ("nightly-" +:+ drop 5 "2026-02-03").
Proof.
  split; [reflexivity|]. split; [reflexivity|]. split; [reflexivity|].
  apply (short_version_of_nightly "4.22.0-0." "2026-02-03" "-002928"); reflexivity.
Defined.

(** X17.  A version change marker stands at every position, from the
    second run on, whose version differs from the one before, and
    nowhere else; there is no marker exactly when all runs have one
    version. *)
Theorem version_change_markers_positions (versions : list string) :
  (forall i : nat,
     i ∈ version_change_markers versions <->
     (1 <= i < length versions)%nat /\ versions !! i <> versions !! (i - 1)%nat) /\
  (version_change_markers versions = [] <->
   forall i j v w, versions !! i = Some v -> versions !! j = Some w -> v = w).
Proof.
  assert (Hmem : forall i : nat,
            i ∈ version_change_markers versions <->
            (1 <= i < length versions)%nat /\ versions !! i <> versions !! (i - 1)%nat).
  { intros i. unfold version_change_markers.
    rewrite list_elem_of_In, filter_In, in_seq, negb_true_iff, bool_decide_eq_false.
    split; intros [H1 H2]; (split; [lia|done]). }
  split; [exact Hmem|]. split.
  - intros Hnil.
    assert (Hfirst : forall i v, versions !! i = Some v -> versions !! 0%nat = Some v).
    { induction i as [|i IH]; intros v Hv; [done|].
      assert (Heq : versions !! S i = versions !! i).
      { destruct (decide (versions !! S i = versions !! (S i - 1)%nat)) as [Heq|Hne].
        - by rewrite Nat.sub_succ, Nat.sub_0_r in Heq.
        - assert (Hin : S i ∈ version_change_markers versions).
          { apply Hmem. split; [|done]. apply lookup_lt_Some in Hv. lia. }
          rewrite Hnil in Hin. by apply elem_of_nil in Hin. }
      apply IH. by rewrite <- Heq. }
    intros i j v w Hv Hw. apply Hfirst in Hv, Hw. congruence.
  - intros Hall. apply elem_of_nil_inv. intros i Hi. apply Hmem in Hi as [Hrange Hne].
    apply Hne.
    destruct (lookup_lt_is_Some_2 versions i ltac:(lia)) as [v Hv].
    destruct (lookup_lt_is_Some_2 versions (i - 1) ltac:(lia)) as [w Hw].
    rewrite Hv, Hw. f_equal. by apply (Hall i (i - 1)%nat).
Qed.

Lemma length_cp_parts (metrics_config : list (string * metric_config))
  (change_points_by_metric : list (string * list change_point)) :
  length (cp_parts metrics_config change_points_by_metric)
  = total_cps change_points_by_metric.
Proof.
  unfold cp_parts, total_cps.
  induction change_points_by_metric as [|[metric_name cps] l IH]; simpl; [done|].
  by rewrite length_app, length_map, IH.
Qed.

(** X18.  The title has one summary token for each changepoint it
    counts, and no summary line exactly when it counts none; the noun is
    in the singular for one changepoint only. *)
Theorem title_tokens_match_count (metrics_config : list (string * metric_config))
  (change_points_by_metric : list (string * list change_point)) :
  let total := total_cps change_points_by_metric in
  let parts := cp_parts metrics_config change_points_by_metric in
  length parts = total /\
  (cp_summary_line parts = "" <-> total = 0%nat) /\
  (cp_label total = "changepoint" <-> total = 1%nat).
Proof.
  intros total parts. subst total parts.
  pose proof (length_cp_parts metrics_config change_points_by_metric) as Hlen.
  split; [exact Hlen|]. split.
  - rewrite <- Hlen.
    destruct (cp_parts metrics_config change_points_by_metric); simpl; split; done.
  - unfold cp_label.
    destruct (total_cps change_points_by_metric =? 1)%nat eqn:Hone.
    + apply Nat.eqb_eq in Hone. done.
    + apply Nat.eqb_neq in Hone. split; [discriminate|done].
Qed.

(** X19.  The markers of a row are drawn for the changepoints whose
    index lies in the data, in their order, and each sits on the series:
    at its index, at the value of that index.  A changepoint beyond the
    data has no marker. *)
Theorem row_markers_sit_on_the_series (config : metric_config) (values : list float)
  (change_points : list change_point) :
  let markers := row_markers config values change_points in
  Forall (fun m => values !! mk_x m = Some (mk_y m)) markers /\
  map mk_x markers
  = List.filter (fun i => (i <? length values)%nat) (map index change_points) /\
  (length markers <= length change_points)%nat.
Proof.
  intros markers. subst markers. unfold row_markers.
  split; [|split].
  - apply Forall_forall. intros m Hm.
    apply list_elem_of_omap in Hm as (cp & _ & Hcp).
    unfold changepoint_marker in Hcp.
    destruct (values !! index cp) as [cp_value|] eqn:Hv; [|done].
    injection Hcp as <-. done.
  - induction change_points as [|cp cps IH]; [done|].
    cbn [omap list_omap map List.filter]. unfold changepoint_marker at 1.
    destruct (values !! index cp) as [cp_value|] eqn:Hv.
    + apply lookup_lt_Some in Hv. apply Nat.ltb_lt in Hv. rewrite Hv.
      cbn. f_equal. exact IH.
    + apply lookup_ge_None in Hv. apply Nat.ltb_ge in Hv. rewrite Hv. exact IH.
  - induction change_points as [|cp cps IH]; [done|].
    cbn [omap list_omap length].
    destruct (changepoint_marker config values cp); simpl; lia.
Qed.

(** X20.  Every row has a line colour, and the palette is reused every
    eight rows. *)
Theorem line_color_cycles (row_idx : Z) :
  is_Some (line_color row_idx) /\ line_color (row_idx + 8) = line_color row_idx.
Proof.
  unfold line_color. change (Z.of_nat (length line_colors)) with 8. split.
  - apply lookup_lt_is_Some. change (length line_colors) with 8%nat.
    pose proof (Z.mod_pos_bound (row_idx - 1) 8 ltac:(lia)). lia.
  - replace (row_idx + 8 - 1) with (row_idx - 1 + 1 * 8) by lia.
    by rewrite Z_mod_plus_full.
Qed.

End FigureProps.

Section EqualMeans.

Import PyFloat PyNum Visualization.

Lemma fsub_same (s : bool) (m : positive) (e : Z) :
  fsub (S754_finite s m e) (S754_finite s m e) = S754_zero false.
Proof. unfold fsub, SFsub. by rewrite Z.sub_diag. Qed.

(** A zero times any direction is not positive. *)
Lemma zero_times_direction (s : bool) (d : Z) :
  gt0 (PyNum.mul (PFloat (S754_zero s)) (PInt d)) = false.
Proof.
  unfold PyNum.mul, gt0, to_float, fmul, SFmul.
  by destruct (of_int d) as [sd|sd| |sd md ed].
Qed.

(** X21.  A changepoint whose mean has not moved, with the same
    non-zero mean before and after, has the percentage change zero, and
    is adverse exactly when the direction of its metric is 0. *)
Theorem equal_means_are_benign_unless_undirected (s : bool) (m : positive) (e : Z) (d : Z) :
  let mean := S754_finite s m e in
  let st := {| mean_1 := mean; mean_2 := mean |} in
  pct_change_of st = PFloat (S754_zero s) /\
  is_regression (pct_change_of st) d = (d =? 0) /\
  color_of (is_regression (pct_change_of st) d)
  = if d =? 0 then "#ff4444" else "#39ff14".
Proof.
  intros mean st.
  assert (Hpct : pct_change_of st = PFloat (S754_zero s)).
  { unfold pct_change_of, st, mean. cbn [mean_1 mean_2].
    replace (feqb (S754_finite s m e) zero) with false by (by destruct s).
    rewrite fsub_same. by destruct s. }
  rewrite Hpct. split; [done|].
  assert (Hreg : is_regression (PFloat (S754_zero s)) d = (d =? 0)).
  { unfold is_regression. by rewrite zero_times_direction. }
  by rewrite Hreg.
Qed.

End EqualMeans.

(** ** The smallest values of the formatter *)

Section TinyValues.

Import PySlice PyFloat PyNum Report MoreExamples.

Lemma digits2_pos_bound (m : positive) : Zpos m < 2 ^ Zpos (digits2_pos m).
Proof.
  induction m as [m IH|m IH|]; cbn [digits2_pos].
  - rewrite Pos2Z.inj_succ, Z.pow_succ_r by lia. lia.
  - rewrite Pos2Z.inj_succ, Z.pow_succ_r by lia. lia.
  - reflexivity.
Qed.

(** A canonical mantissa has at most 53 bits. *)
Lemma bounded_mantissa (m : positive) (e : Z) :
  bounded prec emax m e = true -> Zpos m < 2 ^ 53.
Proof.
  unfold bounded, canonical_mantissa, fexp, emin, prec, emax. intros Hb.
  apply andb_prop in Hb as [Hc _]. apply Z.eqb_eq in Hc.
  pose proof (digits2_pos_bound m) as Hm.
  assert (Hd : Zpos (digits2_pos m) <= 53) by lia.
  pose proof (Z.pow_le_mono_r 2 (Zpos (digits2_pos m)) 53 ltac:(lia) Hd). lia.
Qed.

Lemma div_half_even_small (n d : Z) : 0 <= n -> 2 * n < d -> div_half_even n d = 0.
Proof.
  intros Hn Hd. unfold div_half_even.
  rewrite Z.div_small, Z.mod_small by lia.
  by rewrite (proj2 (Z.compare_lt_iff (2 * n) d) Hd).
Qed.

(** Below [2 ** -35] no digit is left among ten decimals. *)
Lemma scaled_tiny (m : positive) (e : Z) :
  bounded prec emax m e = true ->
  fltb (S754_finite false m e) two_pow_minus_35 = true ->
  e < 0 /\ scaled 10 m e = 0.
Proof.
  intros Hb Hlt. pose proof (bounded_mantissa m e Hb) as Hm.
  unfold fltb, SFltb, two_pow_minus_35 in Hlt. cbn [SFcompare] in Hlt.
  assert (Hcases : e <= -88 \/ (e = -87 /\ Zpos m < 2 ^ 52)).
  { destruct (e ?= -87) eqn:He; [|left|discriminate Hlt].
    - right. apply Z.compare_eq in He. split; [done|].
      assert (Hmc : Pos.compare m 4503599627370496 = Lt).
      { unfold Pos.compare.
        destruct (Pos.compare_cont Eq m 4503599627370496);
          [discriminate Hlt|reflexivity|discriminate Hlt]. }
      change (2 ^ 52) with (Zpos 4503599627370496). exact Hmc.
    - apply (proj1 (Z.compare_lt_iff _ _)) in He. lia. }
  assert (He : e < 0) by lia. split; [exact He|].
  unfold scaled. replace (0 <=? e) with false by (symmetry; apply Z.leb_gt; lia).
  apply div_half_even_small; [lia|].
  change (10 ^ Z.of_nat 10) with 10000000000.
  change (2 ^ 53) with 9007199254740992 in Hm.
  destruct Hcases as [Hlow|[-> Hm52]].
  - pose proof (Z.pow_le_mono_r 2 88 (- e) ltac:(lia) ltac:(lia)) as Hpow.
    change (2 ^ 88) with 309485009821345068724781056 in Hpow. lia.
  - change (2 ^ 52) with 4503599627370496 in Hm52.
    change (2 ^ (- (-87))) with 154742504910672534362390528. lia.
Qed.

Lemma below_tiny_below_one (f : float) :
  fltb (fabs f) two_pow_minus_35 = true -> fltb (fabs f) (of_int 1) = true.
Proof.
  change (of_int 1) with (S754_finite false 4503599627370496 (-52)).
  unfold two_pow_minus_35. destruct f as [s|s| |s m e].
  - reflexivity.
  - discriminate.
  - discriminate.
  - unfold fltb, SFltb. cbn [fabs SFabs SFcompare].
    destruct (e ?= -87) eqn:He; try discriminate; intros _.
    + apply Z.compare_eq in He. subst e. reflexivity.
    + assert (Hlt : (e ?= -52) = Lt).
      { apply Z.compare_lt_iff. apply (proj1 (Z.compare_lt_iff _ _)) in He. lia. }
      by rewrite Hlt.
Qed.

(** X22.  A float below [2 ** -35] in magnitude is shown as [0], and
    as [-0] when it is negative: among its ten decimals no digit is left,
    and the sign stays. *)
Theorem format_metric_value_tiny (f : float) :
  valid_binary prec emax f = true ->
  fltb (fabs f) two_pow_minus_35 = true ->
  _format_metric_value (VFloat f) = if sign_bit f then "-0" else "0".
Proof.
  intros Hv Htiny.
  pose proof (below_tiny_below_one f Htiny) as Hone.
  unfold _format_metric_value, abs_ge.
  rewrite (fltb_not_fleb _ _ (below_one_below_million f Hone)), (fltb_not_fleb _ _ Hone).
  destruct f as [s|s| |s m e]; try discriminate.
  - destruct s; reflexivity.
  - destruct (scaled_tiny m e Hv Htiny) as [_ Hscaled].
    unfold PyFloat.format_fixed. rewrite Hscaled. destruct s; reflexivity.
Qed.

Lemma format_metric_value_tiny_witness :
  valid_binary prec emax f_minus_1e_12 = true /\
  fltb (fabs f_minus_1e_12) two_pow_minus_35 = true /\
  _format_metric_value (VFloat f_minus_1e_12) = "-0".
Proof.
  split; [reflexivity|]. split; [reflexivity|].
  apply (format_metric_value_tiny f_minus_1e_12); reflexivity.
Defined.

End TinyValues.

(** ** What the report prints of the PRs *)

Section PrintedPrs.

Import PySlice Report Spec Examples.

Variable tabulate : list (list string) -> list string -> string.



End PrintedPrs.

Section PrintedPrsExample.

Import PySlice Report Spec Examples MoreExamples.


End PrintedPrsExample.
